(** * ormar: model metadata compilation and save preparation

    A shallow embedding of three source files of ormar

      - [ormar/fields/base.py]               (class [BaseField])
      - [ormar/models/helpers/sqlalchemy.py] (column compilation, table assembly)
      - [ormar/models/mixins/save_mixin.py]  (class [SavePrepareMixin])

    followed by the properties of the specification stated over it.

    Python objects that the source mutates in place (the payload dictionary,
    [Meta], [Meta.model_fields], the sqlalchemy [MetaData] registry, the
    logging stream) are threaded explicitly as state; a raised exception is
    an outcome next to the state in which it left those objects. *)

From stdpp Require Import gmap strings list fin_maps.
From Stdlib Require Import ZArith Ascii.

#[local] Set Warnings "-register-all".
#[local] Open Scope Z_scope.

(** ** Python values *)

(** The values a payload can hold.  [VModel cls attrs] is an instance of an
    [ormar.Model] subclass whose lower-cased class name is [cls];
    [VCallable ret] is a callable that returns [ret] when called without
    arguments (a default factory). *)
Inductive value : Type :=
| VNone
| VBool (b : bool)
| VInt (z : Z)
| VStr (s : string)
| VList (l : list value)
| VDict (d : gmap string value)
| VModel (cls : string) (attrs : gmap string value)
| VCallable (ret : value).

(** [x is None] *)
Definition is_None (v : value) : bool :=
  match v with VNone => true | _ => false end.

(** Python truth value, as tested by [if x:] and [not x]. *)
Definition truthy (v : value) : bool :=
  match v with
  | VNone => false
  | VBool b => b
  | VInt z => negb (z =? 0)
  | VStr s => negb (String.eqb s "")
  | VList l => match l with [] => false | _ :: _ => true end
  | VDict d => negb (bool_decide (dom d = ∅))
  | VModel _ _ => true
  | VCallable _ => true
  end.

(** [callable(x)] *)
Definition callable (v : value) : bool :=
  match v with VCallable _ => true | _ => false end.

(** [isinstance(x, ormar.Model)] and [isinstance(x, list)] *)
Definition is_Model (v : value) : bool :=
  match v with VModel _ _ => true | _ => false end.

Definition is_list (v : value) : bool :=
  match v with VList _ => true | _ => false end.

(** Truth value of a string attribute that may be [None]. *)
Definition str_truthy (o : option string) : bool :=
  match o with
  | Some s => negb (String.eqb s "")
  | None => false
  end.

(** ** Exceptions and the state-and-exception monad *)

Inductive exn : Type :=
| ModelDefinitionError (msg : string)
| ModelPersistenceError (msg : string)
| KeyError (key : string)
| AttributeError (attr : string).

Definition is_ModelPersistenceError (e : exn) : bool :=
  match e with ModelPersistenceError _ => true | _ => false end.

Definition is_ModelDefinitionError (e : exn) : bool :=
  match e with ModelDefinitionError _ => true | _ => false end.

Inductive outcome (A : Type) : Type :=
| Return (a : A)
| Raise (e : exn).
Arguments Return {A} a.
Arguments Raise {A} e.

(** A computation over the mutable objects [S]: it ends by returning or by
    raising, and in both cases leaves a state behind. *)
Definition M (S A : Type) : Type := S -> outcome A * S.

Definition ret {S A} (a : A) : M S A := fun s => (Return a, s).

Definition raise {S A} (e : exn) : M S A := fun s => (Raise e, s).

Definition bind {S A B} (c : M S A) (k : A -> M S B) : M S B :=
  fun s =>
    match c s with
    | (Return a, s') => k a s'
    | (Raise e, s') => (Raise e, s')
    end.

Definition get_state {S} : M S S := fun s => (Return s, s).

Definition modify {S} (f : S -> S) : M S unit := fun s => (Return tt, f s).

(** Lifting of a computation without side effects. *)
Definition lift {S A} (o : outcome A) : M S A := fun s => (o, s).

Declare Scope py_scope.
Delimit Scope py_scope with py.
Notation "x <~ c ;; k" := (bind c (fun x => k))
  (at level 100, c at next level, right associativity) : py_scope.
Notation "c ;;; k" := (bind c (fun _ => k))
  (at level 100, right associativity) : py_scope.
#[local] Open Scope py_scope.

(** [for x in xs: body x] *)
Fixpoint for_each {S A} (xs : list A) (body : A -> M S unit) : M S unit :=
  match xs with
  | [] => ret tt
  | x :: xs' => body x ;;; for_each xs' body
  end.

(** [when c body] is [if c: body]. *)
Definition when {S} (c : bool) (body : M S unit) : M S unit :=
  if c then body else ret tt.

(** ** Insertion-ordered dictionaries

    [Meta.model_fields] is iterated, so its insertion order matters; it is
    an association list with the dictionary operations of Python. *)

Fixpoint odict_get {V} (k : string) (d : list (string * V)) : option V :=
  match d with
  | [] => None
  | (k', v) :: d' => if String.eqb k k' then Some v else odict_get k d'
  end.

(** [d[k] = v]: overwrites in place, or appends a new key at the end. *)
Fixpoint odict_set {V} (k : string) (v : V) (d : list (string * V))
  : list (string * V) :=
  match d with
  | [] => [(k, v)]
  | (k', v') :: d' =>
      if String.eqb k k' then (k, v) :: d' else (k', v') :: odict_set k v d'
  end.

(** ** sqlalchemy objects (external library) *)

Inductive sqltype : Type :=
| SqlInteger
| SqlString
| SqlBoolean
| SqlFloat
| SqlJSON.

(** [sqlalchemy.schema.ForeignKey(name, ondelete=.., onupdate=..)] *)
Record SqlForeignKey : Type := {
  fk_name : string;
  fk_ondelete : option string;
  fk_onupdate : option string
}.

(** [sqlalchemy.Column] *)
Record Column : Type := {
  col_name : string;
  col_type : sqltype;
  col_foreign_keys : list SqlForeignKey;
  col_primary_key : bool;
  col_nullable : bool;
  col_index : bool;
  col_unique : bool;
  col_default : value;
  col_server_default : value
}.

(** [sqlalchemy.Table]: constructing one registers it in the [MetaData]
    it is given. *)
Record Table : Type := {
  table_name : string;
  table_columns : list Column;
  table_constraints : list string
}.

(** ** [ormar/fields/base.py] *)

(** A relation field refers to its target model through [to]; of the target
    the embedded code reads the name and [Meta.pkname]. *)
Record ModelRef : Type := {
  ref_name : string;
  ref_pkname : string
}.

(** Position of a field class in the hierarchy
    [ManyToManyField <: ForeignKeyField <: BaseField]. *)
Inductive field_class : Type :=
| BaseFieldClass
| ForeignKeyFieldClass
| ManyToManyFieldClass.

(** An ormar constraint of a field, turned into a sqlalchemy foreign key
    by [construct_constraints]. *)
Record FieldConstraint : Type := {
  con_name : string;
  con_ondelete : option string;
  con_onupdate : option string
}.

Module BaseField.

(** The class attributes of a field class (ormar fields are never
    instantiated). *)
Record t : Type := {
  cls : field_class;
  related_name : option string;
  column_type : sqltype;
  constraints : list FieldConstraint;
  name : string;
  alias : option string;
  primary_key : bool;
  autoincrement : bool;
  nullable : bool;
  index : bool;
  unique : bool;
  pydantic_only : bool;
  virtual : bool;
  to : option ModelRef;
  default : value;
  server_default : value
}.

(** [issubclass(cls, ormar.fields.ManyToManyField)] *)
Definition is_ManyToManyField (f : t) : bool :=
  match cls f with ManyToManyFieldClass => true | _ => false end.

(** [issubclass(cls, ForeignKeyField)] *)
Definition is_ForeignKeyField (f : t) : bool :=
  match cls f with BaseFieldClass => false | _ => true end.

Definition is_valid_uni_relation (f : t) : bool :=
  negb (is_ManyToManyField f) && negb (virtual f).

Definition get_alias (f : t) : string :=
  match alias f with
  | Some a => if str_truthy (Some a) then a else name f
  | None => name f
  end.

Definition has_default (f : t) (use_server : bool) : bool :=
  negb (is_None (default f))
  || (negb (is_None (server_default f)) && use_server).

(** [has_default()] is called here with its own default, [use_server=True]. *)
Definition get_default (f : t) (use_server : bool) : value :=
  if has_default f true then
    let d :=
      if negb (is_None (default f)) then default f
      else if use_server then server_default f else VNone in
    match d with
    | VCallable r => r
    | _ => d
    end
  else VNone.

Definition is_auto_primary_key (f : t) : bool :=
  if primary_key f then autoincrement f else false.

Definition construct_constraints (f : t) : list SqlForeignKey :=
  map (fun con => {| fk_name := con_name con;
                     fk_ondelete := con_ondelete con;
                     fk_onupdate := con_onupdate con |})
      (constraints f).

(** [cls.alias or name] *)
Definition get_column (f : t) (nm : string) : Column :=
  {| col_name := match alias f with
                 | Some a => if str_truthy (Some a) then a else nm
                 | None => nm
                 end;
     col_type := column_type f;
     col_foreign_keys := construct_constraints f;
     col_primary_key := primary_key f;
     col_nullable := nullable f && negb (primary_key f);
     col_index := index f;
     col_unique := unique f;
     col_default := default f;
     col_server_default := server_default f |}.

End BaseField.

(** ** [ormar/models/helpers/sqlalchemy.py] *)

(** [Meta] of a model class.  An attribute that [hasattr] may find missing
    is an [option]: [None] is "not set". *)
Record ModelMeta : Type := {
  tablename : option string;
  pkname : option string;
  columns : option (list Column);
  model_fields : list (string * BaseField.t);
  constraints : list string;
  table : option Table
}.

(** The objects that model definition mutates: the [Meta] of the model
    under construction, the tables registered in the shared
    [sqlalchemy.MetaData] (oldest first), and what [logging.warning] has
    emitted. *)
Record DefState : Type := {
  meta : ModelMeta;
  registry : list Table;
  log : list string
}.

(** [str.lower], on ASCII letters. *)
Definition ascii_lower (c : ascii) : ascii :=
  let n := nat_of_ascii c in
  if ((65 <=? n) && (n <=? 90))%nat then ascii_of_nat (n + 32) else c.

Fixpoint lower (s : string) : string :=
  match s with
  | EmptyString => EmptyString
  | String c s' => String (ascii_lower c) (lower s')
  end.

(** Modelled from the spec: the field factory [ormar.Integer] is not among
    the sources; the call [Integer(name="id", primary_key=True)] yields, in
    the spec's words, a field named [id] that is integer, primary-key and
    autoincrement (an integer primary key autoincrements unless told
    otherwise). *)
Definition Integer (name : string) (primary_key : bool) : BaseField.t :=
  {| BaseField.cls := BaseFieldClass;
     BaseField.related_name := None;
     BaseField.column_type := SqlInteger;
     BaseField.constraints := [];
     BaseField.name := name;
     BaseField.alias := Some name;
     BaseField.primary_key := primary_key;
     BaseField.autoincrement := primary_key;
     BaseField.nullable := false;
     BaseField.index := false;
     BaseField.unique := false;
     BaseField.pydantic_only := false;
     BaseField.virtual := false;
     BaseField.to := None;
     BaseField.default := VNone;
     BaseField.server_default := VNone |}.

(** The (target, related name) pair of every relation field, in declaration
    order. *)
Definition relation_keys (fields : list (string * BaseField.t))
  : list (string * option string) :=
  omap (fun nf : string * BaseField.t =>
          if BaseField.is_ForeignKeyField nf.2
          then r ← BaseField.to nf.2; Some (ref_name r, BaseField.related_name nf.2)
          else None)
       fields.

(** Modelled from the spec: [validate_related_names_in_relations] lives in
    [ormar/models/helpers/models.py], which is not among the sources.  Of
    the relation fields that lead to the same target at most one may have an
    unset related name, and the set ones must be pairwise distinct: no
    (target, related name) pair occurs twice.  A violation is a definition
    error. *)
Definition validate_related_names_in_relations
  (fields : list (string * BaseField.t)) (new_model : string) : outcome unit :=
  if bool_decide (NoDup (relation_keys fields)) then Return tt
  else Raise (ModelDefinitionError
                ("Multiple fields declared on " +:+ new_model
                 +:+ " model leading to the same model with the same related_name")).

Definition check_pk_column_validity
  (field_name : string) (field : BaseField.t) (pkname : option string)
  : outcome (option string) :=
  match pkname with
  | Some _ => Raise (ModelDefinitionError "Only one primary key column is allowed.")
  | None =>
      if BaseField.pydantic_only field
      then Raise (ModelDefinitionError "Primary key column cannot be pydantic only")
      else Return (Some field_name)
  end.

(** The condition under which the loop appends a column for a field. *)
Definition is_db_column (field : BaseField.t) : bool :=
  negb (BaseField.pydantic_only field)
  && negb (BaseField.virtual field)
  && negb (BaseField.is_ManyToManyField field).

(** The [for field_name, field in model_fields.items()] loop, with its two
    local variables [pkname] and [columns] as accumulators. *)
Fixpoint columns_loop (items : list (string * BaseField.t))
  (pkname : option string) (columns : list Column)
  : outcome (option string * list Column) :=
  match items with
  | [] => Return (pkname, columns)
  | (field_name, field) :: rest =>
      match (if BaseField.primary_key field
             then check_pk_column_validity field_name field pkname
             else Return pkname) with
      | Raise e => Raise e
      | Return pkname' =>
          columns_loop rest pkname'
            (if is_db_column field
             then columns ++ [BaseField.get_column field (BaseField.get_alias field)]
             else columns)
      end
  end.

Definition synthesis_warning : string :=
  "Table {table_name} had no fields so auto Integer primary key named `id` created.".

(** The state is the dictionary object passed as [model_fields] (mutated
    when it is empty) and the log. *)
Definition sqlalchemy_columns_from_model_fields (new_model : string)
  : M (list (string * BaseField.t) * list string) (option string * list Column) :=
  s <~ get_state ;;
  when (length s.1 =? 0)%nat
       (modify (fun s => (odict_set "id" (Integer "id" true) s.1,
                          s.2 ++ [synthesis_warning]))) ;;;
  s <~ get_state ;;
  lift (validate_related_names_in_relations s.1 new_model) ;;;
  lift (columns_loop s.1 None []).

Definition set_tablename (tn : string) (m : ModelMeta) : ModelMeta :=
  {| tablename := Some tn; pkname := pkname m; columns := columns m;
     model_fields := model_fields m; constraints := constraints m;
     table := table m |}.

Definition set_model_fields (fs : list (string * BaseField.t)) (m : ModelMeta)
  : ModelMeta :=
  {| tablename := tablename m; pkname := pkname m; columns := columns m;
     model_fields := fs; constraints := constraints m; table := table m |}.

Definition set_columns_and_pk (cols : list Column) (pk : string) (m : ModelMeta)
  : ModelMeta :=
  {| tablename := tablename m; pkname := Some pk; columns := Some cols;
     model_fields := model_fields m; constraints := constraints m;
     table := table m |}.

Definition set_table (t : Table) (m : ModelMeta) : ModelMeta :=
  {| tablename := tablename m; pkname := pkname m; columns := columns m;
     model_fields := model_fields m; constraints := constraints m;
     table := Some t |}.

Definition on_meta (f : ModelMeta -> ModelMeta) (s : DefState) : DefState :=
  {| meta := f (meta s); registry := registry s; log := log s |}.

(** Runs the column compiler on [Meta.model_fields] itself: what it does to
    the dictionary and to the log is kept also when it raises. *)
Definition columns_of_meta_fields (new_model : string)
  : M DefState (option string * list Column) :=
  fun s =>
    let '(r, (fs, lg)) :=
      sqlalchemy_columns_from_model_fields new_model (model_fields (meta s), log s) in
    (r, {| meta := set_model_fields fs (meta s);
           registry := registry s;
           log := lg |}).

Definition populate_meta_tablename_columns_and_pk (name : string)
  : M DefState unit :=
  let tablename' := lower name +:+ "s" in
  modify (on_meta (fun m => set_tablename (default tablename' (tablename m)) m)) ;;;
  s <~ get_state ;;
  pc <~ match columns (meta s) with
        | Some cols =>
            match pkname (meta s) with
            | Some pk => ret (Some pk, cols)
            | None => raise (AttributeError "pkname")
            end
        | None => columns_of_meta_fields name
        end ;;
  match pc.1 with
  | None => raise (ModelDefinitionError "Table has to have a primary key.")
  | Some pk => modify (on_meta (set_columns_and_pk pc.2 pk))
  end.

(** [copy.deepcopy]: the copy is the same value. *)
Definition deepcopy {A} (x : A) : A := x.

(** [sqlalchemy.Table(name, metadata, *columns, *constraints)]: builds the
    table and enters it in the registry. *)
Definition new_Table (tn : string) (cols : list Column) (cons : list string)
  : M DefState Table :=
  let t := {| table_name := tn; table_columns := cols; table_constraints := cons |} in
  modify (fun s => {| meta := meta s; registry := registry s ++ [t]; log := log s |}) ;;;
  ret t.

Definition populate_meta_sqlalchemy_table_if_required : M DefState unit :=
  s <~ get_state ;;
  match table (meta s) with
  | Some _ => ret tt
  | None =>
      match tablename (meta s), columns (meta s) with
      | None, _ => raise (AttributeError "tablename")
      | Some _, None => raise (AttributeError "columns")
      | Some tn, Some cols =>
          t <~ new_Table tn (map deepcopy cols) (constraints (meta s)) ;;
          modify (on_meta (set_table t))
      end
  end.

(** ** [ormar/models/mixins/save_mixin.py]

    The state of these computations is the dictionary object the caller
    passes in: every method mutates it in place and returns that same
    object, so the state left behind is both the returned dictionary and
    what the caller sees through its own reference. *)

Abbreviation payload := (gmap string value).

(** [d[k]] on [Meta.model_fields] *)
Definition getitem {V} (d : list (string * V)) (k : string) : outcome V :=
  match odict_get k d with
  | Some v => Return v
  | None => Raise (KeyError k)
  end.

(** [getattr(obj, attr)] on a model instance *)
Definition getattr (obj : value) (attr : string) : outcome value :=
  match obj with
  | VModel _ attrs =>
      match attrs !! attr with
      | Some v => Return v
      | None => Raise (AttributeError attr)
      end
  | _ => Raise (AttributeError attr)
  end.

(** [target.get(key)]: only a dictionary has the method. *)
Definition dict_get (target : value) (key : string) : outcome value :=
  match target with
  | VDict d => Return (default VNone (d !! key))
  | _ => Raise (AttributeError "get")
  end.

(** [[target.get(key) for target in targets]] *)
Fixpoint list_get (targets : list value) (key : string) : outcome (list value) :=
  match targets with
  | [] => Return []
  | target :: rest =>
      match dict_get target key with
      | Raise e => Raise e
      | Return v =>
          match list_get rest key with
          | Raise e => Raise e
          | Return vs => Return (v :: vs)
          end
      end
  end.

(** [field_value.get_name()] *)
Definition get_name (v : value) : string :=
  match v with VModel cls _ => cls | _ => "" end.

(** [target_field.to.Meta.pkname] *)
Definition target_pkname_of (target_field : BaseField.t) : outcome string :=
  match BaseField.to target_field with
  | Some r => Return (ref_pkname r)
  | None => Raise (AttributeError "to")
  end.

(** Modelled from the spec: [extract_related_names] belongs to
    [RelationMixin] ([ormar/models/mixins/relation_mixin.py]), which is not
    among the sources.  The substitution stage runs, in the spec's words,
    over every relation field that is a real owning foreign key (excludes
    many-to-many, excludes virtual/reverse side); the names are listed in
    declaration order. *)
Definition extract_related_names (m : ModelMeta) : list string :=
  map fst
      (List.filter (fun nf : string * BaseField.t =>
                      BaseField.is_ForeignKeyField nf.2
                      && BaseField.is_valid_uni_relation nf.2)
                   (model_fields m)).

Definition _remove_pk_from_kwargs (m : ModelMeta) : M payload unit :=
  pkname <~ lift (match pkname m with
                  | Some n => Return n
                  | None => Raise (AttributeError "pkname")
                  end) ;;
  pk <~ lift (getitem (model_fields m) pkname) ;;
  new_kwargs <~ get_state ;;
  when (match new_kwargs !! pkname with
        | Some v => is_None v
        | None => false
        end
        && (BaseField.nullable pk || BaseField.autoincrement pk))
       (modify (delete pkname)).

(** One iteration of the loop of [substitute_models_with_pks]. *)
Definition substitute_model_with_pk (m : ModelMeta) (field : string)
  : M payload unit :=
  model_dict <~ get_state ;;
  let field_value := default VNone (model_dict !! field) in
  when (negb (is_None field_value))
    (target_field <~ lift (getitem (model_fields m) field) ;;
     target_pkname <~ lift (target_pkname_of target_field) ;;
     if is_Model field_value then
       pk_value <~ lift (getattr field_value target_pkname) ;;
       if negb (truthy pk_value) then
         raise (ModelPersistenceError
                  ("You cannot save " +:+ get_name field_value
                   +:+ " model without pk set!"))
       else modify (<[field := pk_value]>)
     else if truthy field_value then
       if is_list field_value then
         pks <~ lift (match field_value with
                      | VList targets => list_get targets target_pkname
                      | _ => Return []
                      end) ;;
         modify (<[field := VList pks]>)
       else
         pk_value <~ lift (dict_get field_value target_pkname) ;;
         modify (<[field := pk_value]>)
     else modify (delete field)).

Definition substitute_models_with_pks (m : ModelMeta) : M payload unit :=
  for_each (extract_related_names m) (substitute_model_with_pk m).

(** One iteration of the loop of [populate_default_values]. *)
Definition populate_default_value (nf : string * BaseField.t) : M payload unit :=
  let field_name := nf.1 in
  let field := nf.2 in
  new_kwargs <~ get_state ;;
  when (negb (bool_decide (is_Some (new_kwargs !! field_name)))
        && BaseField.has_default field false
        && negb (BaseField.pydantic_only field))
       (modify (<[field_name := BaseField.get_default field false]>)) ;;;
  new_kwargs <~ get_state ;;
  when (negb (is_None (BaseField.server_default field))
        && negb (truthy (default VNone (new_kwargs !! field_name))))
       (modify (delete field_name)).

Definition populate_default_values (m : ModelMeta) : M payload unit :=
  for_each (model_fields m) populate_default_value.

(** Modelled from the spec: [translate_columns_to_aliases] belongs to
    [AliasMixin], which is not among the sources.  It rewrites every
    remaining key from its in-memory field name to its persisted column
    alias (identity if no alias override was set), field by field. *)
Definition translate_column_to_alias (nf : string * BaseField.t) : M payload unit :=
  new_kwargs <~ get_state ;;
  match new_kwargs !! nf.1 with
  | Some v => modify (fun d => <[BaseField.get_alias nf.2 := v]> (delete nf.1 d))
  | None => ret tt
  end.

Definition translate_columns_to_aliases (m : ModelMeta) : M payload unit :=
  for_each (model_fields m) translate_column_to_alias.

Definition prepare_model_to_save (m : ModelMeta) : M payload unit :=
  _remove_pk_from_kwargs m ;;;
  substitute_models_with_pks m ;;;
  populate_default_values m ;;;
  translate_columns_to_aliases m.

(** ** Sample models

    A model [Pet] with an autoincrement integer key [id], a plain column
    [name] and a foreign key [owner] to a model [Owner] whose key is [id]. *)

Definition owner_ref : ModelRef := {| ref_name := "owner"; ref_pkname := "id" |}.

Definition String_field (name : string) : BaseField.t :=
  {| BaseField.cls := BaseFieldClass;
     BaseField.related_name := None;
     BaseField.column_type := SqlString;
     BaseField.constraints := [];
     BaseField.name := name;
     BaseField.alias := None;
     BaseField.primary_key := false;
     BaseField.autoincrement := false;
     BaseField.nullable := false;
     BaseField.index := false;
     BaseField.unique := false;
     BaseField.pydantic_only := false;
     BaseField.virtual := false;
     BaseField.to := None;
     BaseField.default := VNone;
     BaseField.server_default := VNone |}.

Definition ForeignKey_field (name : string) (to : ModelRef) : BaseField.t :=
  {| BaseField.cls := ForeignKeyFieldClass;
     BaseField.related_name := None;
     BaseField.column_type := SqlInteger;
     BaseField.constraints :=
       [{| con_name := ref_name to +:+ "s." +:+ ref_pkname to;
           con_ondelete := None; con_onupdate := None |}];
     BaseField.name := name;
     BaseField.alias := None;
     BaseField.primary_key := false;
     BaseField.autoincrement := false;
     BaseField.nullable := true;
     BaseField.index := false;
     BaseField.unique := false;
     BaseField.pydantic_only := false;
     BaseField.virtual := false;
     BaseField.to := Some to;
     BaseField.default := VNone;
     BaseField.server_default := VNone |}.

Definition pet_fields : list (string * BaseField.t) :=
  [("id", Integer "id" true);
   ("name", String_field "name");
   ("owner", ForeignKey_field "owner" owner_ref)].

(** [Pet.Meta] as declared, before compilation. *)
Definition pet_meta_declared : ModelMeta :=
  {| tablename := None; pkname := None; columns := None;
     model_fields := pet_fields; constraints := []; table := None |}.

(** [Pet.Meta] once the primary key is known. *)
Definition pet_meta : ModelMeta :=
  {| tablename := Some "pets"; pkname := Some "id"; columns := None;
     model_fields := pet_fields; constraints := []; table := None |}.

Definition def_state (m : ModelMeta) : DefState :=
  {| meta := m; registry := []; log := [] |}.

(** An [Owner] instance that was never saved: its key is [None]. *)
Definition unsaved_owner : value := VModel "owner" {[ "id" := VNone ]}.

Definition saved_owner : value := VModel "owner" {[ "id" := VInt 7 ]}.

(** [Pet.Meta] with its columns compiled, before table assembly. *)
Definition pet_meta_compiled : ModelMeta :=
  {| tablename := Some "pets"; pkname := Some "id";
     columns := Some (map (fun nf : string * BaseField.t =>
                             BaseField.get_column nf.2 (BaseField.get_alias nf.2))
                          pet_fields);
     model_fields := pet_fields; constraints := []; table := None |}.

(** [Pet.Meta] with its columns compiled and its table assembled. *)
Definition pet_table : Table :=
  {| table_name := "pets"; table_columns := []; table_constraints := [] |}.

Definition pet_meta_assembled : ModelMeta :=
  {| tablename := Some "pets"; pkname := Some "id"; columns := Some [];
     model_fields := pet_fields; constraints := []; table := Some pet_table |}.

(** Payloads of a [Pet] about to be saved. *)
Definition payload_unsaved_owner : gmap string value :=
  {[ "id" := VNone; "owner" := unsaved_owner ]}.

Definition payload_saved_owner : gmap string value :=
  {[ "name" := VStr "rex"; "owner" := saved_owner ]}.

Definition payload_owner_key : gmap string value :=
  {[ "name" := VStr "rex"; "owner" := VInt 5 ]}.

Definition payload_no_owner : gmap string value :=
  {[ "name" := VStr "rex"; "owner" := VNone ]}.

Definition payload_empty_owner : gmap string value :=
  {[ "name" := VStr "rex"; "owner" := VList [] ]}.

Definition payload_nested_owner : gmap string value :=
  {[ "name" := VStr "rex"; "owner" := VDict {[ "name" := VStr "ann" ]} ]}.

Definition nested_owners : list value :=
  [VDict {[ "name" := VStr "ann" ]}; VDict {[ "id" := VInt 3 ]}].

Definition payload_nested_owners : gmap string value :=
  {[ "name" := VStr "rex"; "owner" := VList nested_owners ]}.

(** A model with two relations to [Owner], neither with a related name. *)
Definition clashing_fields : list (string * BaseField.t) :=
  [("id", Integer "id" true);
   ("owner", ForeignKey_field "owner" owner_ref);
   ("keeper", ForeignKey_field "keeper" owner_ref)].

(** A field whose static default is explicitly [None]. *)
Definition nickname_field : BaseField.t := String_field "nickname".

Definition nickname_meta : ModelMeta :=
  {| tablename := Some "people"; pkname := Some "id"; columns := None;
     model_fields := [("id", Integer "id" true); ("nickname", nickname_field)];
     constraints := []; table := None |}.


(** ** Vocabulary of the properties *)

(** The primary-key-flagged entries of a field dictionary, in declaration
    order. *)
Definition pk_flagged (fields : list (string * BaseField.t))
  : list (string * BaseField.t) :=
  List.filter (fun nf => BaseField.primary_key nf.2) fields.

(** The column of every entry that passes the loop's test, in declaration
    order. *)
Definition db_columns (fields : list (string * BaseField.t)) : list Column :=
  map (fun nf : string * BaseField.t =>
         BaseField.get_column nf.2 (BaseField.get_alias nf.2))
      (List.filter (fun nf => is_db_column nf.2) fields).

(** [field] is a key of [Meta.model_fields] that holds an owning
    foreign-key relation (a relation that is neither many-to-many nor the
    virtual side) leading to [target]. *)
Definition owning_foreign_key (m : ModelMeta) (field : string)
  (f : BaseField.t) (target : ModelRef) : Prop :=
  odict_get field (model_fields m) = Some f
  /\ BaseField.is_ForeignKeyField f = true
  /\ BaseField.is_valid_uni_relation f = true
  /\ BaseField.to f = Some target.

(** Well-formed compiled metadata: the keys of the field dictionary are
    distinct (it is a dictionary), [pkname] is one of them, and every
    relation field has its target. *)
Definition wf_meta (m : ModelMeta) : bool :=
  bool_decide (NoDup (map fst (model_fields m)))
  && match pkname m with
     | Some pk =>
         match odict_get pk (model_fields m) with
         | Some _ => true
         | None => false
         end
     | None => false
     end
  && forallb (fun nf : string * BaseField.t =>
                implb (BaseField.is_ForeignKeyField nf.2)
                      (match BaseField.to nf.2 with
                       | Some _ => true
                       | None => false
                       end))
             (model_fields m).

Definition is_dict (v : value) : bool :=
  match v with VDict _ => true | _ => false end.

(** The shapes of a relation value that the substitution stage handles:
    [None] or another false value, a model instance that has the target's
    primary-key attribute, a mapping, a list of mappings. *)
Definition relation_value_ok (target_pkname : string) (v : value) : bool :=
  match v with
  | VModel _ attrs => bool_decide (is_Some (attrs !! target_pkname))
  | VList targets => forallb is_dict targets
  | VDict _ => true
  | _ => negb (truthy v)
  end.

(** Every relation that the substitution stage goes through holds, if
    anything, a value of such a shape. *)
Definition well_shaped (m : ModelMeta) (p : gmap string value) : bool :=
  forallb (fun field =>
             match odict_get field (model_fields m), p !! field with
             | Some f, Some v =>
                 match BaseField.to f with
                 | Some target => relation_value_ok (ref_pkname target) v
                 | None => true
                 end
             | _, _ => true
             end)
          (extract_related_names m).

(** The primary key that [target.get(key)] extracts from a mapping. *)
Definition pk_of_mapping (key : string) (target : value) : value :=
  match target with
  | VDict d => default VNone (d !! key)
  | _ => VNone
  end.

(** A model whose [Meta] declares no field at all. *)
Definition empty_meta : ModelMeta :=
  {| tablename := None; pkname := None; columns := None;
     model_fields := []; constraints := []; table := None |}.

(** ** [BaseField.default_value]

    [pydantic.Field] is an external constructor: of the [FieldInfo] it
    returns, the default (absent when pydantic's [Undefined]) and the
    default factory. *)

Record FieldInfo : Type := {
  fi_default : option value;
  fi_default_factory : option value
}.

(** [Field(default=d)] *)
Definition Field_default (d : value) : FieldInfo :=
  {| fi_default := Some d; fi_default_factory := None |}.

(** [Field(default_factory=factory)] *)
Definition Field_default_factory (factory : value) : FieldInfo :=
  {| fi_default := None; fi_default_factory := Some factory |}.

Definition default_value (f : BaseField.t) (use_server : bool)
  : option FieldInfo :=
  if BaseField.is_auto_primary_key f then Some (Field_default VNone)
  else if BaseField.has_default f use_server then
    let default :=
      if negb (is_None (BaseField.default f)) then BaseField.default f
      else BaseField.server_default f in
    if callable default then Some (Field_default_factory default)
    else Some (Field_default default)
  else None.

(** The value a [FieldInfo] stands for: what its factory returns, or its
    default. *)
Definition resolve (fi : option FieldInfo) : value :=
  match fi with
  | Some info =>
      match fi_default_factory info with
      | Some (VCallable r) => r
      | _ => default VNone (fi_default info)
      end
  | None => VNone
  end.

(** ** [create_and_append_m2m_fk]

    A model class as this helper reads it: [get_name()] and
    [get_column_alias] come from classes that are not among the sources and
    are taken as given; [Meta] is read only. *)

Record ModelClass : Type := {
  model_get_name : string;
  model_get_column_alias : string -> string;
  model_Meta : ModelMeta
}.

Definition set_columns (cols : list Column) (m : ModelMeta) : ModelMeta :=
  {| tablename := tablename m; pkname := pkname m; columns := Some cols;
     model_fields := model_fields m; constraints := constraints m;
     table := table m |}.

(** [table.append_column(column)] *)
Definition append_column (column : Column) (t : Table) : Table :=
  {| table_name := table_name t;
     table_columns := table_columns t ++ [column];
     table_constraints := table_constraints t |}.

(** Reading an attribute of [Meta] that may not be set. *)
Definition meta_attr {A} (attr : string) (o : option A) : outcome A :=
  match o with
  | Some a => Return a
  | None => Raise (AttributeError attr)
  end.

(** [sqlalchemy.Column(name, type, foreign_key)]: the parameters not given
    have sqlalchemy's defaults. *)
Definition m2m_column (name : string) (type : sqltype) (target : string) : Column :=
  {| col_name := name;
     col_type := type;
     col_foreign_keys := [{| fk_name := target;
                             fk_ondelete := Some "CASCADE";
                             fk_onupdate := Some "CASCADE" |}];
     col_primary_key := false;
     col_nullable := true;
     col_index := false;
     col_unique := false;
     col_default := VNone;
     col_server_default := VNone |}.

(** The state is [model_field.through.Meta]. *)
Definition create_and_append_m2m_fk (model : ModelClass) : M ModelMeta unit :=
  pkname <~ lift (meta_attr "pkname" (pkname (model_Meta model))) ;;
  let pk_alias := model_get_column_alias model pkname in
  model_columns <~ lift (meta_attr "columns" (columns (model_Meta model))) ;;
  match List.find (fun col => String.eqb (col_name col) pk_alias) model_columns with
  | None =>
      raise (ModelDefinitionError
               "ManyToMany relation cannot lead to field without pk")
  | Some pk_column =>
      model_tablename <~ lift (meta_attr "tablename"
                                         (tablename (model_Meta model))) ;;
      let column := m2m_column (model_get_name model) (col_type pk_column)
                               (model_tablename +:+ "." +:+ pk_alias) in
      through <~ get_state ;;
      through_columns <~ lift (meta_attr "columns" (columns through)) ;;
      modify (set_columns (through_columns ++ [column])) ;;;
      through <~ get_state ;;
      through_table <~ lift (meta_attr "table" (table through)) ;;
      modify (set_table (append_column (deepcopy column) through_table))
  end.


(** ** More sample models *)

Definition id_column : Column := BaseField.get_column (Integer "id" true) "id".


Definition pet_class : ModelClass :=
  {| model_get_name := "pet";
     model_get_column_alias := fun field_name => field_name;
     model_Meta := pet_meta_compiled |}.

(** The through model of a many-to-many relation between [Pet] and
    [Owner], with its own key only. *)
Definition through_meta : ModelMeta :=
  {| tablename := Some "pets_owners"; pkname := Some "id";
     columns := Some [id_column];
     model_fields := [("id", Integer "id" true)];
     constraints := [];
     table := Some {| table_name := "pets_owners";
                      table_columns := [id_column];
                      table_constraints := [] |} |}.

(** A column with a static default and a field with a server default. *)
Definition status_field : BaseField.t :=
  {| BaseField.cls := BaseFieldClass;
     BaseField.related_name := None;
     BaseField.column_type := SqlString;
     BaseField.constraints := [];
     BaseField.name := "status";
     BaseField.alias := None;
     BaseField.primary_key := false;
     BaseField.autoincrement := false;
     BaseField.nullable := false;
     BaseField.index := false;
     BaseField.unique := false;
     BaseField.pydantic_only := false;
     BaseField.virtual := false;
     BaseField.to := None;
     BaseField.default := VStr "new";
     BaseField.server_default := VNone |}.

Definition created_at_field : BaseField.t :=
  {| BaseField.cls := BaseFieldClass;
     BaseField.related_name := None;
     BaseField.column_type := SqlString;
     BaseField.constraints := [];
     BaseField.name := "created_at";
     BaseField.alias := None;
     BaseField.primary_key := false;
     BaseField.autoincrement := false;
     BaseField.nullable := true;
     BaseField.index := false;
     BaseField.unique := false;
     BaseField.pydantic_only := false;
     BaseField.virtual := false;
     BaseField.to := None;
     BaseField.default := VNone;
     BaseField.server_default := VStr "now()" |}.

Definition ticket_meta : ModelMeta :=
  {| tablename := Some "tickets"; pkname := Some "id"; columns := None;
     model_fields := [("id", Integer "id" true);
                      ("status", status_field);
                      ("created_at", created_at_field)];
     constraints := []; table := None |}.

(** * Properties *)

(** ** Field descriptors *)

Lemma is_valid_uni_relation_spec (f : BaseField.t) :
  BaseField.is_valid_uni_relation f = true
  <-> BaseField.is_ManyToManyField f = false /\ BaseField.virtual f = false.
Proof.
  unfold BaseField.is_valid_uni_relation.
  rewrite andb_true_iff, !negb_true_iff. reflexivity.
Qed.

(** C6: [is_valid_uni_relation] is meant to hold only of a foreign-key
    relation field, but it never looks at whether the field is a relation:
    on the plain string column [name], which is no relation at all, it
    answers [True]. *)
Theorem C6_is_valid_uni_relation_on_plain_field :
  BaseField.is_ForeignKeyField (String_field "name") = false
  /\ BaseField.is_valid_uni_relation (String_field "name") = true.
Proof. split; reflexivity. Qed.

(** On relation fields the predicate is the intended one. *)
Lemma is_valid_uni_relation_on_relations (f : BaseField.t) :
  BaseField.is_ForeignKeyField f = true ->
  (BaseField.is_valid_uni_relation f = true
   <-> BaseField.cls f = ForeignKeyFieldClass /\ BaseField.virtual f = false).
Proof.
  intros Hrel. rewrite is_valid_uni_relation_spec.
  unfold BaseField.is_ForeignKeyField, BaseField.is_ManyToManyField in *.
  destruct (BaseField.cls f); intuition congruence.
Qed.

Lemma has_default_None (f : BaseField.t) (use_server : bool) :
  BaseField.default f = VNone ->
  BaseField.server_default f = VNone ->
  BaseField.has_default f use_server = false.
Proof.
  intros Hd Hs. unfold BaseField.has_default. rewrite Hd, Hs. reflexivity.
Qed.

Lemma get_default_None (f : BaseField.t) (use_server : bool) :
  BaseField.default f = VNone ->
  BaseField.server_default f = VNone ->
  BaseField.get_default f use_server = VNone.
Proof.
  intros Hd Hs. unfold BaseField.get_default.
  rewrite (has_default_None f true Hd Hs). reflexivity.
Qed.

(** ** Column compilation *)

Lemma columns_loop_columns items :
  forall pk cols pk' cols',
    columns_loop items pk cols = Return (pk', cols') ->
    cols' = cols ++ db_columns items.
Proof.
  induction items as [|[n f] rest IH]; intros pk cols pk' cols' Hrun.
  - simpl in Hrun. injection Hrun as _ <-. unfold db_columns. simpl.
    by rewrite app_nil_r.
  - simpl in Hrun.
    destruct (if BaseField.primary_key f
              then check_pk_column_validity n f pk else Return pk)
      as [pk1|e]; [|discriminate].
    apply IH in Hrun. subst cols'. unfold db_columns. simpl.
    destruct (is_db_column f); simpl; [|done].
    by rewrite <- app_assoc.
Qed.

Lemma columns_loop_no_pk items :
  forall pk cols,
    pk_flagged items = [] ->
    columns_loop items pk cols = Return (pk, cols ++ db_columns items).
Proof.
  induction items as [|[n f] rest IH]; intros pk cols Hnone.
  - unfold db_columns. simpl. by rewrite app_nil_r.
  - unfold pk_flagged in Hnone. simpl in Hnone. simpl.
    destruct (BaseField.primary_key f); [discriminate|].
    rewrite IH by exact Hnone. unfold db_columns. simpl.
    destruct (is_db_column f); simpl; [|done].
    by rewrite <- app_assoc.
Qed.

Lemma columns_loop_one_pk items :
  forall n f cols,
    pk_flagged items = [(n, f)] ->
    BaseField.pydantic_only f = false ->
    columns_loop items None cols = Return (Some n, cols ++ db_columns items).
Proof.
  induction items as [|[n0 f0] rest IH]; intros n f cols Hone Hpers.
  - discriminate.
  - unfold pk_flagged in Hone. simpl in Hone. simpl.
    destruct (BaseField.primary_key f0) eqn:Hpk.
    + injection Hone as -> -> Hrest. simpl. rewrite Hpers.
      rewrite columns_loop_no_pk by exact Hrest. unfold db_columns. simpl.
      destruct (is_db_column f); simpl; [|done].
      by rewrite <- app_assoc.
    + rewrite (IH n f) by done. unfold db_columns. simpl.
      destruct (is_db_column f0); simpl; [|done].
      by rewrite <- app_assoc.
Qed.

(** When the loop returns, it met no primary key after one was chosen, and
    at most one in all, which is persisted. *)
Lemma columns_loop_Return_pk items :
  forall pk0 cols pk' cols',
    columns_loop items pk0 cols = Return (pk', cols') ->
    match pk0 with
    | Some _ => pk_flagged items = [] /\ pk' = pk0
    | None =>
        (pk_flagged items = [] /\ pk' = None)
        \/ (exists n f, pk_flagged items = [(n, f)]
                        /\ BaseField.pydantic_only f = false
                        /\ pk' = Some n)
    end.
Proof.
  induction items as [|[n f] rest IH]; intros pk0 cols pk' cols' Hrun.
  - simpl in Hrun. injection Hrun as <- _. destruct pk0; naive_solver.
  - simpl in Hrun. unfold pk_flagged. simpl.
    destruct (BaseField.primary_key f) eqn:Hpk.
    + destruct pk0 as [p|]; simpl in Hrun; [discriminate|].
      destruct (BaseField.pydantic_only f) eqn:Hpo; [discriminate|].
      apply IH in Hrun as [Hrest ->]. right. exists n, f.
      unfold pk_flagged in Hrest. by rewrite Hrest.
    + apply IH in Hrun. exact Hrun.
Qed.

Lemma columns_loop_Raise items :
  forall pk cols e,
    columns_loop items pk cols = Raise e -> is_ModelDefinitionError e = true.
Proof.
  induction items as [|[n f] rest IH]; intros pk cols e Hrun.
  - discriminate.
  - simpl in Hrun.
    destruct (BaseField.primary_key f).
    + unfold check_pk_column_validity in Hrun.
      destruct pk as [p|].
      * by injection Hrun as <-.
      * destruct (BaseField.pydantic_only f).
        -- by injection Hrun as <-.
        -- by eapply IH.
    + by eapply IH.
Qed.

(** What the compiler does to a dictionary that is not empty: the
    dictionary and the log stay as they are, and the result is that of the
    validation followed by the loop. *)
Lemma sqlalchemy_columns_nonempty new_model fields lg :
  fields <> [] ->
  sqlalchemy_columns_from_model_fields new_model (fields, lg)
  = (match validate_related_names_in_relations fields new_model with
     | Return _ => columns_loop fields None []
     | Raise e => Raise e
     end, (fields, lg)).
Proof.
  intros Hne. destruct fields as [|nf rest]; [done|].
  unfold sqlalchemy_columns_from_model_fields, bind, get_state, when, lift.
  simpl. by destruct (validate_related_names_in_relations _ _).
Qed.

Lemma sqlalchemy_columns_empty new_model lg :
  sqlalchemy_columns_from_model_fields new_model ([], lg)
  = (Return (Some "id", [BaseField.get_column (Integer "id" true) "id"]),
     ([("id", Integer "id" true)], lg ++ [synthesis_warning])).
Proof. reflexivity. Qed.

(** C7: on an empty field dictionary the compiler enters a field [id] in
    it, which is an integer, primary-key, autoincrement field, emits one
    warning, and returns [id] as the primary-key name with the one column of
    that field. *)
Theorem C7_empty_fields_get_id_key (new_model : string) (lg : list string) :
  let run := sqlalchemy_columns_from_model_fields new_model ([], lg) in
  run.1 = Return (Some "id", [BaseField.get_column (Integer "id" true) "id"])
  /\ run.2.1 = [("id", Integer "id" true)]
  /\ run.2.2 = lg ++ [synthesis_warning]
  /\ BaseField.column_type (Integer "id" true) = SqlInteger
  /\ BaseField.primary_key (Integer "id" true) = true
  /\ BaseField.autoincrement (Integer "id" true) = true
  /\ (populate_meta_tablename_columns_and_pk new_model (def_state empty_meta)).1
     = Return tt
  /\ pkname (meta (populate_meta_tablename_columns_and_pk
                     new_model (def_state empty_meta)).2) = Some "id".
Proof.
  cbv zeta. rewrite sqlalchemy_columns_empty. repeat split.
Qed.

(** C4: when the compiler returns, its column list is exactly the columns
    of the fields that are not pydantic-only, not virtual and not
    many-to-many, one per such field and in the order of the dictionary
    (which is the caller's dictionary unless that was empty). *)
Theorem C4_columns_are_db_fields_in_order
  (new_model : string) (st st' : list (string * BaseField.t) * list string)
  (pk : option string) (cols : list Column) :
  sqlalchemy_columns_from_model_fields new_model st = (Return (pk, cols), st') ->
  cols = map (fun nf : string * BaseField.t =>
                BaseField.get_column nf.2 (BaseField.get_alias nf.2))
             (List.filter (fun nf => negb (BaseField.pydantic_only nf.2)
                                     && negb (BaseField.virtual nf.2)
                                     && negb (BaseField.is_ManyToManyField nf.2))
                          st'.1)
  /\ (st.1 <> [] -> st'.1 = st.1).
Proof.
  destruct st as [fields lg]. intros Hrun.
  destruct (Nat.eq_dec (length fields) 0) as [Hlen|Hlen].
  - apply nil_length_inv in Hlen as ->.
    rewrite sqlalchemy_columns_empty in Hrun. by injection Hrun as _ <- <-.
  - assert (Hne : fields <> []) by (by intros ->).
    rewrite sqlalchemy_columns_nonempty in Hrun by done.
    injection Hrun as Hres <-. split; [|done].
    destruct (validate_related_names_in_relations _ _); [|discriminate].
    by apply columns_loop_columns in Hres.
Qed.

Lemma C4_columns_are_db_fields_in_order_witness :
  [BaseField.get_column (Integer "id" true) "id";
   BaseField.get_column (String_field "name") "name";
   BaseField.get_column (ForeignKey_field "owner" owner_ref) "owner"]
  = map (fun nf : string * BaseField.t =>
           BaseField.get_column nf.2 (BaseField.get_alias nf.2))
        (List.filter (fun nf => negb (BaseField.pydantic_only nf.2)
                                && negb (BaseField.virtual nf.2)
                                && negb (BaseField.is_ManyToManyField nf.2))
                     pet_fields)
  /\ (pet_fields <> [] -> pet_fields = pet_fields).
Proof.
  apply (C4_columns_are_db_fields_in_order "Pet" (pet_fields, [])
           (pet_fields, []) (Some "id")).
  vm_compute. reflexivity.
Defined.

(** The run of [populate_meta_tablename_columns_and_pk] on a [Meta] that
    has no columns yet and declares at least one field. *)
Lemma populate_meta_columns_nonempty name s :
  columns (meta s) = None ->
  model_fields (meta s) <> [] ->
  (populate_meta_tablename_columns_and_pk name s).1
  = match validate_related_names_in_relations (model_fields (meta s)) name with
    | Raise e => Raise e
    | Return _ =>
        match columns_loop (model_fields (meta s)) None [] with
        | Raise e => Raise e
        | Return (None, _) =>
            Raise (ModelDefinitionError "Table has to have a primary key.")
        | Return (Some _, _) => Return tt
        end
    end
  /\ pkname (meta (populate_meta_tablename_columns_and_pk name s).2)
     = match validate_related_names_in_relations (model_fields (meta s)) name with
       | Raise e => pkname (meta s)
       | Return _ =>
           match columns_loop (model_fields (meta s)) None [] with
           | Return (Some pk, _) => Some pk
           | _ => pkname (meta s)
           end
       end.
Proof.
  intros Hcols Hne.
  unfold populate_meta_tablename_columns_and_pk, bind, modify, get_state.
  simpl. rewrite Hcols. unfold columns_of_meta_fields. simpl.
  rewrite sqlalchemy_columns_nonempty by exact Hne.
  destruct (validate_related_names_in_relations _ _) as [[]|e]; [|done].
  destruct (columns_loop _ _ _) as [[[pk|] cols]|e]; done.
Qed.

(** C2: on a [Meta] whose columns are still to be compiled,
    - if the related names are valid and exactly one field is flagged as
      primary key, and that field is not pydantic-only, compilation returns
      and [Meta.pkname] is the name of that field;
    - if the dictionary is not empty and has no primary-key-flagged field,
      or two or more, or a primary-key-flagged field that is
      pydantic-only, compilation raises [ModelDefinitionError]. *)
Theorem C2_exactly_one_persisted_primary_key (name : string) (s : DefState) :
  columns (meta s) = None ->
  (forall n f,
      pk_flagged (model_fields (meta s)) = [(n, f)] ->
      BaseField.pydantic_only f = false ->
      NoDup (relation_keys (model_fields (meta s))) ->
      (populate_meta_tablename_columns_and_pk name s).1 = Return tt
      /\ pkname (meta (populate_meta_tablename_columns_and_pk name s).2) = Some n)
  /\ (model_fields (meta s) <> [] ->
      pk_flagged (model_fields (meta s)) = []
      \/ (2 <= length (pk_flagged (model_fields (meta s))))%nat
      \/ (exists n f, In (n, f) (pk_flagged (model_fields (meta s)))
                      /\ BaseField.pydantic_only f = true) ->
      exists msg,
        (populate_meta_tablename_columns_and_pk name s).1
        = Raise (ModelDefinitionError msg)).
Proof.
  intros Hcols. split.
  - intros n f Hone Hpers Hnames.
    assert (Hne : model_fields (meta s) <> []).
    { intros Hnil. rewrite Hnil in Hone. discriminate. }
    destruct (populate_meta_columns_nonempty name s Hcols Hne) as [-> ->].
    unfold validate_related_names_in_relations.
    rewrite bool_decide_eq_true_2 by exact Hnames.
    by rewrite (columns_loop_one_pk _ n f).
  - intros Hne Hbad.
    destruct (populate_meta_columns_nonempty name s Hcols Hne) as [-> _].
    unfold validate_related_names_in_relations.
    destruct (bool_decide _); [|by eexists].
    destruct (columns_loop _ _ _) as [[pk' cols]|e] eqn:Hloop.
    + apply columns_loop_Return_pk in Hloop
        as [[Hnone ->]|(n & f & Hone & Hpers & ->)].
      * by eexists.
      * exfalso. destruct Hbad as [Hzero|[Htwo|(n' & f' & Hin & Hpo)]].
        -- rewrite Hone in Hzero. discriminate.
        -- rewrite Hone in Htwo. simpl in Htwo. lia.
        -- rewrite Hone in Hin. destruct Hin as [[= <- <-]|[]]. congruence.
    + pose proof (columns_loop_Raise _ _ _ _ Hloop) as Hdef.
      destruct e; try discriminate. by eexists.
Qed.

Lemma C2_exactly_one_persisted_primary_key_witness :
  ((populate_meta_tablename_columns_and_pk "Pet" (def_state pet_meta_declared)).1
   = Return tt
   /\ pkname (meta (populate_meta_tablename_columns_and_pk
                      "Pet" (def_state pet_meta_declared)).2) = Some "id")
  /\ (exists msg,
         (populate_meta_tablename_columns_and_pk
            "Pet" (def_state (set_model_fields
                                [("name", String_field "name")]
                                pet_meta_declared))).1
         = Raise (ModelDefinitionError msg)).
Proof.
  split.
  - apply (proj1 (C2_exactly_one_persisted_primary_key
                    "Pet" (def_state pet_meta_declared) eq_refl)
             "id" (Integer "id" true)).
    + reflexivity.
    + reflexivity.
    + apply (bool_decide_unpack _). vm_compute. exact I.
  - apply (proj2 (C2_exactly_one_persisted_primary_key
                    "Pet" (def_state (set_model_fields
                                        [("name", String_field "name")]
                                        pet_meta_declared)) eq_refl)).
    + discriminate.
    + left. reflexivity.
Defined.

(** C2, as the specification words it, fails on the empty dictionary: it
    has no primary-key-flagged field, and compilation returns (with the
    synthesized key [id]) instead of raising. *)
Lemma C2_counterexample_empty_fields :
  ~ (forall (name : string) (s : DefState),
        columns (meta s) = None ->
        pk_flagged (model_fields (meta s)) = [] ->
        exists msg,
          (populate_meta_tablename_columns_and_pk name s).1
          = Raise (ModelDefinitionError msg)).
Proof.
  intros Hclaim.
  destruct (Hclaim "Thing" (def_state empty_meta) eq_refl eq_refl) as [msg Hrun].
  vm_compute in Hrun. discriminate.
Qed.

(** One persisted primary key is not enough when the related names clash:
    the validation that precedes the loop raises. *)
Lemma related_names_clash_fails :
  pk_flagged clashing_fields = [("id", Integer "id" true)]
  /\ exists msg,
       (populate_meta_tablename_columns_and_pk
          "Pet" (def_state (set_model_fields clashing_fields pet_meta_declared))).1
       = Raise (ModelDefinitionError msg).
Proof. split; [reflexivity|]. eexists. vm_compute. reflexivity. Qed.

(** ** Table assembly *)

(** C8: on a [Meta] that already has its table, table assembly returns
    without touching anything: same [Meta] (hence the same table), same
    registry, nothing constructed.  In particular a second call after a
    call that returned changes nothing. *)
Theorem C8_table_assembly_idempotent (s : DefState) :
  (forall t, table (meta s) = Some t ->
             populate_meta_sqlalchemy_table_if_required s = (Return tt, s))
  /\ (forall s', populate_meta_sqlalchemy_table_if_required s = (Return tt, s') ->
                 populate_meta_sqlalchemy_table_if_required s' = (Return tt, s')).
Proof.
  assert (Hnoop : forall s0 t, table (meta s0) = Some t ->
            populate_meta_sqlalchemy_table_if_required s0 = (Return tt, s0)).
  { intros s0 t Ht.
    unfold populate_meta_sqlalchemy_table_if_required, bind, get_state.
    by rewrite Ht. }
  split; [apply Hnoop|].
  intros s' Hrun.
  destruct (table (meta s)) as [t|] eqn:Ht.
  - rewrite (Hnoop s t Ht) in Hrun. injection Hrun as <-. by apply (Hnoop s t).
  - unfold populate_meta_sqlalchemy_table_if_required, bind, get_state in Hrun.
    rewrite Ht in Hrun.
    destruct (tablename (meta s)) as [tn|]; [|discriminate].
    destruct (columns (meta s)) as [cols|]; [|discriminate].
    unfold new_Table, bind, modify, ret in Hrun. simpl in Hrun.
    injection Hrun as <-. by eapply Hnoop.
Qed.

Lemma C8_table_assembly_idempotent_witness :
  populate_meta_sqlalchemy_table_if_required (def_state pet_meta_assembled)
  = (Return tt, def_state pet_meta_assembled)
  /\ populate_meta_sqlalchemy_table_if_required
       (populate_meta_sqlalchemy_table_if_required (def_state pet_meta_compiled)).2
     = (Return tt,
        (populate_meta_sqlalchemy_table_if_required (def_state pet_meta_compiled)).2).
Proof.
  split.
  - apply (proj1 (C8_table_assembly_idempotent (def_state pet_meta_assembled))
             pet_table).
    reflexivity.
  - apply (proj2 (C8_table_assembly_idempotent (def_state pet_meta_compiled))).
    vm_compute. reflexivity.
Defined.

(** ** Dictionaries *)

Lemma odict_get_Some_In {V} (k : string) (v : V) (d : list (string * V)) :
  odict_get k d = Some v -> In (k, v) d.
Proof.
  induction d as [|[k' v'] d IH]; simpl; [done|].
  destruct (String.eqb k k') eqn:Hk.
  - apply String.eqb_eq in Hk as ->. intros [= ->]. by left.
  - intros Hget. right. by apply IH.
Qed.

Lemma odict_get_In {V} (k : string) (v : V) (d : list (string * V)) :
  NoDup (map fst d) -> In (k, v) d -> odict_get k d = Some v.
Proof.
  induction d as [|[k' v'] d IH]; simpl; [done|].
  intros Hkeys Hin. apply NoDup_cons in Hkeys as [Hfresh Hkeys].
  destruct Hin as [Heq|Hin].
  - injection Heq as -> ->. by rewrite String.eqb_refl.
  - destruct (String.eqb k k') eqn:Hk.
    + apply String.eqb_eq in Hk as ->. exfalso. apply Hfresh.
      apply list_elem_of_In, in_map_iff. by exists (k', v).
    + by apply IH.
Qed.

Lemma NoDup_map_fst_filter {V} (P : string * V -> bool) (d : list (string * V)) :
  NoDup (map fst d) -> NoDup (map fst (List.filter P d)).
Proof.
  induction d as [|kv d IH]; simpl; [done|].
  intros Hkeys. apply NoDup_cons in Hkeys as [Hfresh Hkeys].
  destruct (P kv); [|by apply IH]. simpl. apply NoDup_cons. split; [|by apply IH].
  intros Hin. apply Hfresh.
  apply list_elem_of_In, in_map_iff in Hin as (kv' & Hfst & Hin).
  apply filter_In in Hin as [Hin _].
  apply list_elem_of_In, in_map_iff. by exists kv'.
Qed.

(** ** Save preparation: loops *)

Lemma for_each_total {S A} (body : A -> M S unit) (xs : list A) :
  (forall x s, (body x s).1 = Return tt) ->
  forall s, (for_each xs body s).1 = Return tt.
Proof.
  intros Hbody. induction xs as [|x xs IH]; intros s; [done|].
  simpl. unfold bind. specialize (Hbody x s).
  destruct (body x s) as [[[]|e] s1]; simpl in Hbody; [|discriminate].
  apply IH.
Qed.

(** A loop whose iterations each leave a key alone leaves it alone. *)
Lemma for_each_frame {A} (body : A -> M (gmap string value) unit)
  (xs : list A) (k : string) :
  (forall x, In x xs -> forall p, (body x p).2 !! k = p !! k) ->
  forall p, (for_each xs body p).2 !! k = p !! k.
Proof.
  induction xs as [|x xs IH]; intros Hbody p; [done|].
  simpl. unfold bind.
  pose proof (Hbody x (or_introl eq_refl) p) as Hx.
  destruct (body x p) as [[[]|e] p1]; simpl in Hx; [|done].
  rewrite IH; [done|]. intros y Hy. apply Hbody. by right.
Qed.

(** ** Save preparation: defaults *)

Lemma populate_default_value_total nf p :
  (populate_default_value nf p).1 = Return tt.
Proof.
  unfold populate_default_value, bind, get_state, when, modify, ret.
  repeat case_match; done.
Qed.

Lemma populate_default_value_other nf k p :
  nf.1 <> k -> (populate_default_value nf p).2 !! k = p !! k.
Proof.
  intros Hne.
  unfold populate_default_value, bind, get_state, when, modify, ret.
  repeat case_match; simplify_eq; simpl;
    rewrite ?lookup_delete_ne, ?lookup_insert_ne by done; done.
Qed.

Lemma populate_default_value_no_default nf p :
  BaseField.default nf.2 = VNone ->
  BaseField.server_default nf.2 = VNone ->
  populate_default_value nf p = (Return tt, p).
Proof.
  intros Hd Hs.
  unfold populate_default_value, bind, get_state, when, modify, ret.
  rewrite (has_default_None _ false Hd Hs), Hs, andb_false_r. reflexivity.
Qed.

(** C9: a field whose static default and server default are both [None]
    has no default ([has_default] is false whatever the flag) and
    [get_default] gives [None]; the defaults stage always returns and, the
    field being an entry of the field dictionary, leaves that field's key
    of the payload as it found it: absent stays absent. *)
Theorem C9_default_None_is_no_default (f : BaseField.t) :
  BaseField.default f = VNone ->
  BaseField.server_default f = VNone ->
  (forall use_server, BaseField.has_default f use_server = false)
  /\ (forall use_server, BaseField.get_default f use_server = VNone)
  /\ (forall (m : ModelMeta) (field_name : string) (p : gmap string value),
         NoDup (map fst (model_fields m)) ->
         In (field_name, f) (model_fields m) ->
         (populate_default_values m p).1 = Return tt
         /\ (populate_default_values m p).2 !! field_name = p !! field_name).
Proof.
  intros Hd Hs. split; [|split].
  - intros use_server. by apply has_default_None.
  - intros use_server. by apply get_default_None.
  - intros m field_name p Hkeys Hin. split.
    + apply for_each_total. intros. apply populate_default_value_total.
    + apply for_each_frame. intros [n g] Hng q.
      destruct (decide (n = field_name)) as [->|Hne].
      * assert (g = f) as ->.
        { apply (odict_get_In _ _ _ Hkeys) in Hin, Hng. congruence. }
        by rewrite populate_default_value_no_default.
      * by apply populate_default_value_other.
Qed.

Lemma C9_default_None_is_no_default_witness :
  BaseField.has_default nickname_field false = false
  /\ BaseField.get_default nickname_field false = VNone
  /\ (populate_default_values nickname_meta ∅).1 = Return tt
  /\ (populate_default_values nickname_meta ∅).2 !! "nickname"
     = (∅ : gmap string value) !! "nickname".
Proof.
  destruct (C9_default_None_is_no_default nickname_field eq_refl eq_refl)
    as (Hhas & Hget & Hstage).
  split; [apply Hhas|]. split; [apply Hget|].
  apply (Hstage nickname_meta "nickname" ∅).
  - apply (bool_decide_unpack _). vm_compute. exact I.
  - simpl. right. left. reflexivity.
Defined.

(** ** Save preparation: substitution of related models *)

Lemma dict_get_Raise target key e :
  dict_get target key = Raise e -> e = AttributeError "get".
Proof. destruct target; simpl; congruence. Qed.

Lemma list_get_Raise targets key e :
  list_get targets key = Raise e -> e = AttributeError "get".
Proof.
  induction targets as [|target rest IH]; simpl; [done|].
  destruct (dict_get target key) as [v|e'] eqn:Hget.
  - destruct (list_get rest key) as [vs|e'']; [done|].
    intros [= <-]. by apply IH.
  - intros [= <-]. by eapply dict_get_Raise.
Qed.

Lemma list_get_dicts targets key :
  forallb is_dict targets = true ->
  list_get targets key = Return (map (pk_of_mapping key) targets).
Proof.
  induction targets as [|target rest IH]; simpl; [done|].
  intros [Hd Hrest]%andb_true_iff. rewrite (IH Hrest).
  by destruct target.
Qed.

Ltac unfold_step :=
  unfold substitute_model_with_pk, bind, get_state, when, lift, raise, modify,
    ret, getitem, target_pkname_of, getattr in *.

Section Substitution.

Context (m : ModelMeta).

(** An iteration only touches the key it is about. *)
Lemma substitute_model_with_pk_frame field p k :
  k <> field -> (substitute_model_with_pk m field p).2 !! k = p !! k.
Proof.
  intros Hne. unfold_step.
  repeat case_match; simplify_eq; simpl;
    rewrite ?lookup_delete_ne, ?lookup_insert_ne by done; done.
Qed.

(** An iteration does nothing for a key that is absent. *)
Lemma substitute_model_with_pk_absent field p :
  p !! field = None -> substitute_model_with_pk m field p = (Return tt, p).
Proof. intros Habs. unfold_step. by rewrite Habs. Qed.

(** An iteration does nothing for a key that holds [None]. *)
Lemma substitute_model_with_pk_None field p :
  p !! field = Some VNone -> substitute_model_with_pk m field p = (Return tt, p).
Proof. intros Habs. unfold_step. by rewrite Habs. Qed.

(** An iteration that raises leaves the dictionary as it found it. *)
Lemma substitute_model_with_pk_Raise field p e p' :
  substitute_model_with_pk m field p = (Raise e, p') -> p' = p.
Proof.
  unfold_step. intros Hrun. repeat case_match; simplify_eq; done.
Qed.

Lemma substitute_model_with_pk_no_new_key field p k :
  p !! k = None -> (substitute_model_with_pk m field p).2 !! k = None.
Proof.
  intros Habs. destruct (decide (k = field)) as [->|Hne].
  - by rewrite substitute_model_with_pk_absent.
  - by rewrite substitute_model_with_pk_frame.
Qed.

(** The only [ModelPersistenceError] of an iteration is that of a model
    instance whose primary key is false. *)
Lemma substitute_model_with_pk_PersistenceError field p e p' :
  substitute_model_with_pk m field p = (Raise e, p') ->
  is_ModelPersistenceError e = true ->
  exists f target cls attrs pk_value,
    odict_get field (model_fields m) = Some f
    /\ BaseField.to f = Some target
    /\ p !! field = Some (VModel cls attrs)
    /\ attrs !! ref_pkname target = Some pk_value
    /\ truthy pk_value = false.
Proof.
  unfold_step. intros Hrun Hpe.
  destruct (p !! field) as [v|] eqn:Hv; simpl in Hrun; [|discriminate].
  destruct (odict_get field (model_fields m)) as [f|] eqn:Hf;
    [|by destruct v; simpl in Hrun; simplify_eq].
  destruct (BaseField.to f) as [target|] eqn:Hto;
    [|by destruct v; simpl in Hrun; simplify_eq].
  destruct v as [| | | | |d|cls attrs|]; simpl in Hrun;
    repeat case_match; simplify_eq; try done;
    try (match goal with
         | H : list_get _ _ = Raise _ |- _ => apply list_get_Raise in H as ->
         end; done).
  do 5 eexists. split_and!; [done..|]. by apply negb_true_iff.
Qed.

(** What an iteration does depends only on the value under its key. *)
Lemma substitute_model_with_pk_local field p q :
  p !! field = q !! field ->
  (substitute_model_with_pk m field p).1 = (substitute_model_with_pk m field q).1
  /\ (substitute_model_with_pk m field p).2 !! field
     = (substitute_model_with_pk m field q).2 !! field.
Proof.
  intros Heq. unfold_step. rewrite <- Heq.
  repeat case_match; simplify_eq; simpl;
    rewrite ?lookup_delete_eq, ?lookup_insert_eq; done.
Qed.

Lemma substitute_loop_frame names p k :
  ~ In k names ->
  (for_each names (substitute_model_with_pk m) p).2 !! k = p !! k.
Proof.
  intros Hout. apply for_each_frame. intros field Hin q.
  apply substitute_model_with_pk_frame. by intros ->.
Qed.

Lemma substitute_loop_no_new_key names k :
  forall p, p !! k = None ->
            (for_each names (substitute_model_with_pk m) p).2 !! k = None.
Proof.
  induction names as [|field names IH]; intros p Habs; [done|].
  simpl. unfold bind.
  pose proof (substitute_model_with_pk_no_new_key field p k Habs) as Hstep.
  destruct (substitute_model_with_pk m field p) as [[[]|e] p1]; simpl in Hstep;
    [|done].
  by apply IH.
Qed.

(** A [ModelPersistenceError] of the loop comes from a relation, among
    those iterated, that holds an instance whose primary key is false; the
    dictionary still holds that instance when the error leaves the loop. *)
Lemma substitute_loop_PersistenceError names :
  forall p e p',
    for_each names (substitute_model_with_pk m) p = (Raise e, p') ->
    is_ModelPersistenceError e = true ->
    exists field f target cls attrs pk_value,
      In field names
      /\ odict_get field (model_fields m) = Some f
      /\ BaseField.to f = Some target
      /\ p' !! field = Some (VModel cls attrs)
      /\ attrs !! ref_pkname target = Some pk_value
      /\ truthy pk_value = false.
Proof.
  induction names as [|field names IH]; intros p e p' Hrun Hpe; [done|].
  simpl in Hrun. unfold bind in Hrun.
  destruct (substitute_model_with_pk m field p) as [[[]|e1] p1] eqn:Hstep.
  - destruct (IH _ _ _ Hrun Hpe) as (k & f & t & c & a & v & Hin & Hrest).
    exists k, f, t, c, a, v. split; [by right|done].
  - injection Hrun as -> ->.
    pose proof (substitute_model_with_pk_Raise _ _ _ _ Hstep) as ->.
    destruct (substitute_model_with_pk_PersistenceError _ _ _ _ Hstep Hpe)
      as (f & t & c & a & v & Hrest).
    exists field, f, t, c, a, v. split; [by left|done].
Qed.

(** When the loop returns, every iterated key went through its own
    iteration, which returned, and ended with the value that iteration
    leaves when run on the initial dictionary. *)
Lemma substitute_loop_Return_at names :
  NoDup names ->
  forall p p' k,
    for_each names (substitute_model_with_pk m) p = (Return tt, p') ->
    In k names ->
    (substitute_model_with_pk m k p).1 = Return tt
    /\ p' !! k = (substitute_model_with_pk m k p).2 !! k.
Proof.
  induction names as [|field names IH]; intros Hnodup p p' k Hrun Hin; [done|].
  apply NoDup_cons in Hnodup as [Hfresh Hnodup].
  rewrite list_elem_of_In in Hfresh.
  simpl in Hrun. unfold bind in Hrun.
  destruct (substitute_model_with_pk m field p) as [[[]|e1] p1] eqn:Hstep;
    [|discriminate].
  destruct Hin as [->|Hin].
  - rewrite Hstep. split; [done|]. simpl.
    rewrite <- (substitute_loop_frame names p1 k Hfresh). by rewrite Hrun.
  - assert (Hne : k <> field) by (by intros ->).
    destruct (IH Hnodup _ _ _ Hrun Hin) as [Hret Hval].
    pose proof (substitute_model_with_pk_frame field p k Hne) as Hframe.
    rewrite Hstep in Hframe. simpl in Hframe.
    destruct (substitute_model_with_pk_local k p1 p Hframe) as [Hout Hat].
    by rewrite <- Hout, <- Hat.
Qed.

End Substitution.

Lemma owning_foreign_key_related m field f target :
  owning_foreign_key m field f target -> In field (extract_related_names m).
Proof.
  intros (Hget & Hrel & Huni & _). unfold extract_related_names.
  apply in_map_iff. exists (field, f). split; [done|].
  apply filter_In. split; [by apply odict_get_Some_In|].
  simpl. by rewrite Hrel, Huni.
Qed.

Lemma extract_related_names_NoDup m :
  NoDup (map fst (model_fields m)) -> NoDup (extract_related_names m).
Proof. apply NoDup_map_fst_filter. Qed.

Lemma wf_meta_spec m :
  wf_meta m = true ->
  NoDup (map fst (model_fields m))
  /\ (exists pk f, pkname m = Some pk /\ odict_get pk (model_fields m) = Some f)
  /\ (forall n f, In (n, f) (model_fields m) ->
                  BaseField.is_ForeignKeyField f = true ->
                  is_Some (BaseField.to f)).
Proof.
  unfold wf_meta. intros [[Hkeys Hpk]%andb_true_iff Hto]%andb_true_iff.
  split_and!.
  - by apply bool_decide_eq_true_1 in Hkeys.
  - destruct (pkname m) as [pk|]; [|done].
    destruct (odict_get pk (model_fields m)) as [f|] eqn:Hget; [|done].
    by exists pk, f.
  - intros n f Hin Hrel. rewrite forallb_forall in Hto.
    specialize (Hto _ Hin). simpl in Hto. rewrite Hrel in Hto.
    by destruct (BaseField.to f).
Qed.

Lemma related_is_owning_foreign_key m field :
  wf_meta m = true ->
  In field (extract_related_names m) ->
  exists f target, owning_foreign_key m field f target.
Proof.
  intros (Hkeys & _ & Hto)%wf_meta_spec Hin. unfold extract_related_names in Hin.
  apply in_map_iff in Hin as ([n f] & Hfst & Hin). simpl in Hfst. subst n.
  apply filter_In in Hin as [Hin Hflags]. simpl in Hflags.
  apply andb_true_iff in Hflags as [Hrel Huni].
  destruct (Hto _ _ Hin Hrel) as [target Htarget].
  exists f, target. split_and!; try done. by apply odict_get_In.
Qed.

(** ** Save preparation: the other stages *)

Ltac unfold_remove_pk :=
  unfold _remove_pk_from_kwargs, bind, get_state, when, lift, modify, ret,
    getitem in *.

Lemma remove_pk_frame m p k :
  pkname m <> Some k -> (_remove_pk_from_kwargs m p).2 !! k = p !! k.
Proof.
  intros Hne. unfold_remove_pk.
  repeat case_match; simplify_eq; simpl; try done.
  rewrite lookup_delete_ne; [done|]. congruence.
Qed.

Lemma remove_pk_lookup_Some m p k v :
  (_remove_pk_from_kwargs m p).2 !! k = Some v -> p !! k = Some v.
Proof.
  unfold_remove_pk.
  repeat case_match; simplify_eq; simpl; try done.
  intros Hlook. by apply lookup_delete_Some in Hlook as [_ ?].
Qed.

Lemma remove_pk_no_new_key m p k :
  p !! k = None -> (_remove_pk_from_kwargs m p).2 !! k = None.
Proof.
  intros Habs.
  destruct ((_remove_pk_from_kwargs m p).2 !! k) as [v|] eqn:Hlook; [|done].
  apply remove_pk_lookup_Some in Hlook. congruence.
Qed.

Lemma remove_pk_total m p :
  wf_meta m = true -> (_remove_pk_from_kwargs m p).1 = Return tt.
Proof.
  intros (_ & (pk & f & Hpk & Hget) & _)%wf_meta_spec. unfold_remove_pk.
  rewrite Hpk. simpl. rewrite Hget. simpl. by case_match.
Qed.

Lemma translate_column_to_alias_total nf p :
  (translate_column_to_alias nf p).1 = Return tt.
Proof.
  unfold translate_column_to_alias, bind, get_state, modify, ret.
  by case_match.
Qed.

Lemma populate_default_values_total m p :
  (populate_default_values m p).1 = Return tt.
Proof. apply for_each_total. intros. apply populate_default_value_total. Qed.

Lemma translate_columns_to_aliases_total m p :
  (translate_columns_to_aliases m p).1 = Return tt.
Proof. apply for_each_total. intros. apply translate_column_to_alias_total. Qed.

(** A failure of the pipeline is a failure of stage 1 or, stage 1 having
    returned, of stage 2; the dictionary is as that stage left it. *)
Lemma prepare_model_to_save_Raise m p e p' :
  prepare_model_to_save m p = (Raise e, p') ->
  _remove_pk_from_kwargs m p = (Raise e, p')
  \/ exists p1, _remove_pk_from_kwargs m p = (Return tt, p1)
                /\ substitute_models_with_pks m p1 = (Raise e, p').
Proof.
  unfold prepare_model_to_save, bind. intros Hrun.
  destruct (_remove_pk_from_kwargs m p) as [[[]|e1] p1]; [|by left].
  right. exists p1. split; [done|].
  destruct (substitute_models_with_pks m p1) as [[[]|e2] p2]; [|done].
  pose proof (populate_default_values_total m p2) as H3.
  destruct (populate_default_values m p2) as [[[]|e3] p3]; [|done].
  pose proof (translate_columns_to_aliases_total m p3) as H4.
  destruct (translate_columns_to_aliases m p3) as [[[]|e4] p4]; [|done].
  discriminate.
Qed.

Lemma remove_pk_Raise m p e p' :
  _remove_pk_from_kwargs m p = (Raise e, p') ->
  p' = p /\ is_ModelPersistenceError e = false.
Proof.
  unfold_remove_pk. intros Hrun. repeat case_match; simplify_eq; done.
Qed.

Lemma well_shaped_at m p field f target v :
  well_shaped m p = true ->
  owning_foreign_key m field f target ->
  p !! field = Some v ->
  relation_value_ok (ref_pkname target) v = true.
Proof.
  intros Hshape Hown Hv. unfold well_shaped in Hshape.
  rewrite forallb_forall in Hshape.
  specialize (Hshape field (owning_foreign_key_related _ _ _ _ Hown)).
  destruct Hown as (Hget & _ & _ & Hto). by rewrite Hget, Hv, Hto in Hshape.
Qed.

(** On a value of a handled shape an iteration returns, or raises the
    [ModelPersistenceError] of the unsaved instance. *)
Lemma substitute_model_with_pk_shaped m field f target p e p' :
  odict_get field (model_fields m) = Some f ->
  BaseField.to f = Some target ->
  (forall v, p !! field = Some v ->
             relation_value_ok (ref_pkname target) v = true) ->
  substitute_model_with_pk m field p = (Raise e, p') ->
  is_ModelPersistenceError e = true.
Proof.
  intros Hf Hto Hshape. unfold_step. rewrite Hf. simpl. rewrite Hto. simpl.
  destruct (p !! field) as [v|] eqn:Hv; simpl; [|done].
  specialize (Hshape v eq_refl).
  destruct v as [|b|z|s|targets|d|cls attrs|r]; simpl in *; try done.
  - rewrite negb_true_iff in Hshape. by rewrite Hshape.
  - rewrite negb_true_iff in Hshape. by rewrite Hshape.
  - rewrite negb_true_iff in Hshape. by rewrite Hshape.
  - destruct targets as [|target0 rest]; [done|].
    rewrite (list_get_dicts _ _ Hshape). done.
  - by case_match.
  - apply bool_decide_eq_true_1 in Hshape as [pk_value ->].
    case_match; [|done]. by intros [= <- _].
Qed.

Lemma substitute_loop_shaped m names :
  NoDup names ->
  forall p e p',
    (forall k, In k names ->
               exists f target,
                 odict_get k (model_fields m) = Some f
                 /\ BaseField.to f = Some target
                 /\ forall v, p !! k = Some v ->
                              relation_value_ok (ref_pkname target) v = true) ->
    for_each names (substitute_model_with_pk m) p = (Raise e, p') ->
    is_ModelPersistenceError e = true.
Proof.
  induction names as [|field names IH]; intros Hnodup p e p' Hshape Hrun;
    [done|].
  apply NoDup_cons in Hnodup as [Hfresh Hnodup].
  rewrite list_elem_of_In in Hfresh.
  simpl in Hrun. unfold bind in Hrun.
  destruct (substitute_model_with_pk m field p) as [[[]|e1] p1] eqn:Hstep.
  - apply (IH Hnodup p1 e p'); [|done].
    intros k Hk. destruct (Hshape k (or_intror Hk)) as (f & t & Hf & Hto & Hv).
    exists f, t. split_and!; [done..|]. intros v Hlook. apply Hv.
    assert (Hne : k <> field) by (by intros ->).
    pose proof (substitute_model_with_pk_frame m field p k Hne) as Hframe.
    rewrite Hstep in Hframe. simpl in Hframe. by rewrite <- Hframe.
  - injection Hrun as -> ->.
    destruct (Hshape field (or_introl eq_refl)) as (f & t & Hf & Hto & Hv).
    by eapply substitute_model_with_pk_shaped.
Qed.

(** ** Save preparation: the pipeline *)

(** C1: when the pipeline raises [ModelPersistenceError], the caller's
    dictionary has gained no key, and every key other than the primary-key
    name and the names of the owning relations holds what it held before
    the call.  (The primary key may already have been stripped by stage 1,
    and relations handled before the one that failed may already have been
    substituted or dropped.) *)
Theorem C1_failure_leaves_other_keys (m : ModelMeta) (p p' : gmap string value)
  (e : exn) :
  prepare_model_to_save m p = (Raise e, p') ->
  is_ModelPersistenceError e = true ->
  (forall k, p !! k = None -> p' !! k = None)
  /\ (forall k, pkname m <> Some k ->
                ~ In k (extract_related_names m) ->
                p' !! k = p !! k).
Proof.
  intros Hrun Hpe.
  apply prepare_model_to_save_Raise in Hrun as [Hrun|(p1 & Hone & Htwo)].
  - apply remove_pk_Raise in Hrun as [_ Hother]. congruence.
  - assert (Hp1 : p1 = (_remove_pk_from_kwargs m p).2) by (by rewrite Hone).
    assert (Hp' : p' = (substitute_models_with_pks m p1).2) by (by rewrite Htwo).
    subst p' p1. unfold substitute_models_with_pks. split.
    + intros k Habs. apply substitute_loop_no_new_key.
      by apply remove_pk_no_new_key.
    + intros k Hpk Hrel. rewrite substitute_loop_frame by done.
      by apply remove_pk_frame.
Qed.

Lemma C1_failure_leaves_other_keys_witness :
  (forall k, payload_unsaved_owner !! k = None ->
             ({[ "owner" := unsaved_owner ]} : gmap string value) !! k = None)
  /\ (forall k, pkname pet_meta <> Some k ->
                ~ In k (extract_related_names pet_meta) ->
                ({[ "owner" := unsaved_owner ]} : gmap string value) !! k
                = payload_unsaved_owner !! k).
Proof.
  apply (C1_failure_leaves_other_keys pet_meta payload_unsaved_owner
           {[ "owner" := unsaved_owner ]}
           (ModelPersistenceError "You cannot save owner model without pk set!")).
  - vm_compute. reflexivity.
  - reflexivity.
Defined.

(** C1, as the specification words it, fails: stage 1 deletes the [None]
    primary key from the caller's dictionary before stage 2 raises. *)
Lemma C1_counterexample_pk_stripped_before_failure :
  ~ (forall (m : ModelMeta) (p p' : gmap string value) (e : exn),
        prepare_model_to_save m p = (Raise e, p') ->
        is_ModelPersistenceError e = true ->
        p' = p).
Proof.
  intros Hclaim.
  assert (Hrun : prepare_model_to_save pet_meta payload_unsaved_owner
                 = (Raise (ModelPersistenceError
                             "You cannot save owner model without pk set!"),
                    {[ "owner" := unsaved_owner ]}))
    by (vm_compute; reflexivity).
  apply Hclaim in Hrun; [|reflexivity].
  apply (f_equal (fun d : gmap string value => d !! "id")) in Hrun.
  vm_compute in Hrun. discriminate.
Qed.

(** C3: for an owning foreign key whose value is a model instance carrying
    the target's primary-key attribute,
    - the iteration of stage 2 replaces the value by that primary key when
      it is true, and raises [ModelPersistenceError], leaving the dictionary
      alone, when it is false; when stage 2 returns, the key holds the
      primary key;
    - a [ModelPersistenceError] of the pipeline always comes from such an
      instance with a false primary key, still in the dictionary;
    - over well-formed metadata stages 1, 3 and 4 always return;
    - over well-formed metadata and relation values of the handled shapes
      the pipeline raises nothing but that [ModelPersistenceError]. *)
Theorem C3_unsaved_reference_check (m : ModelMeta) :
  (forall field f target p cls attrs pk_value,
      owning_foreign_key m field f target ->
      p !! field = Some (VModel cls attrs) ->
      attrs !! ref_pkname target = Some pk_value ->
      (truthy pk_value = true ->
       substitute_model_with_pk m field p = (Return tt, <[field := pk_value]> p))
      /\ (truthy pk_value = false ->
          substitute_model_with_pk m field p
          = (Raise (ModelPersistenceError
                      ("You cannot save " +:+ cls +:+ " model without pk set!")),
             p))
      /\ (NoDup (map fst (model_fields m)) ->
          forall p', substitute_models_with_pks m p = (Return tt, p') ->
                     truthy pk_value = true /\ p' !! field = Some pk_value))
  /\ (forall p e p',
         prepare_model_to_save m p = (Raise e, p') ->
         is_ModelPersistenceError e = true ->
         exists field f target cls attrs pk_value,
           In field (extract_related_names m)
           /\ odict_get field (model_fields m) = Some f
           /\ BaseField.to f = Some target
           /\ p' !! field = Some (VModel cls attrs)
           /\ attrs !! ref_pkname target = Some pk_value
           /\ truthy pk_value = false)
  /\ (wf_meta m = true ->
      forall p, (_remove_pk_from_kwargs m p).1 = Return tt
                /\ (populate_default_values m p).1 = Return tt
                /\ (translate_columns_to_aliases m p).1 = Return tt)
  /\ (wf_meta m = true ->
      forall p e p',
        well_shaped m p = true ->
        prepare_model_to_save m p = (Raise e, p') ->
        is_ModelPersistenceError e = true).
Proof.
  split_and!.
  - intros field f target p cls attrs pk_value Hown Hv Hattr.
    assert (Hstep : substitute_model_with_pk m field p
                    = if truthy pk_value
                      then (Return tt, <[field := pk_value]> p)
                      else (Raise (ModelPersistenceError
                                     ("You cannot save " +:+ cls
                                      +:+ " model without pk set!")), p)).
    { destruct Hown as (Hget & _ & _ & Hto). unfold_step.
      rewrite Hv, Hget. simpl. rewrite Hto. simpl. rewrite Hattr.
      by destruct (truthy pk_value). }
    split_and!.
    + intros Htrue. by rewrite Hstep, Htrue.
    + intros Hfalse. by rewrite Hstep, Hfalse.
    + intros Hkeys p' Hrun.
      destruct (substitute_loop_Return_at m (extract_related_names m)
                  (extract_related_names_NoDup m Hkeys) p p' field Hrun
                  (owning_foreign_key_related _ _ _ _ Hown)) as [Hret Hval].
      rewrite Hstep in Hret, Hval.
      destruct (truthy pk_value); [|discriminate].
      split; [done|]. simpl in Hval. by rewrite Hval, lookup_insert_eq.
  - intros p e p' Hrun Hpe.
    apply prepare_model_to_save_Raise in Hrun as [Hrun|(p1 & _ & Htwo)].
    + apply remove_pk_Raise in Hrun as [_ Hother]. congruence.
    + by eapply substitute_loop_PersistenceError.
  - intros Hwf p. split_and!.
    + by apply remove_pk_total.
    + apply populate_default_values_total.
    + apply translate_columns_to_aliases_total.
  - intros Hwf p e p' Hshape Hrun.
    apply prepare_model_to_save_Raise in Hrun as [Hrun|(p1 & Hone & Htwo)].
    + pose proof (remove_pk_total m p Hwf) as Htotal.
      rewrite Hrun in Htotal. discriminate.
    + assert (Hp1 : p1 = (_remove_pk_from_kwargs m p).2) by (by rewrite Hone).
      destruct (wf_meta_spec m Hwf) as (Hkeys & _).
      eapply (substitute_loop_shaped m _ (extract_related_names_NoDup m Hkeys));
        [|exact Htwo].
      intros k Hk.
      destruct (related_is_owning_foreign_key m k Hwf Hk) as (f & t & Hown).
      exists f, t. destruct Hown as (Hget & Hrel & Huni & Hto) eqn:Hown'.
      split_and!; [done..|]. intros v Hlook. subst p1.
      apply remove_pk_lookup_Some in Hlook.
      by eapply (well_shaped_at m p k f t v Hshape Hown).
Qed.

Lemma pet_owner_is_owning_foreign_key :
  owning_foreign_key pet_meta "owner" (ForeignKey_field "owner" owner_ref) owner_ref.
Proof. repeat split. Defined.

Lemma pet_fields_NoDup : NoDup (map fst (model_fields pet_meta)).
Proof. apply (bool_decide_unpack _). vm_compute. exact I. Defined.

Lemma C3_unsaved_reference_check_witness :
  substitute_model_with_pk pet_meta "owner" payload_saved_owner
  = (Return tt, <["owner" := VInt 7]> payload_saved_owner)
  /\ substitute_model_with_pk pet_meta "owner" payload_unsaved_owner
     = (Raise (ModelPersistenceError "You cannot save owner model without pk set!"),
        payload_unsaved_owner)
  /\ (exists field f target cls attrs pk_value,
         In field (extract_related_names pet_meta)
         /\ odict_get field (model_fields pet_meta) = Some f
         /\ BaseField.to f = Some target
         /\ ({[ "owner" := unsaved_owner ]} : gmap string value) !! field
            = Some (VModel cls attrs)
         /\ attrs !! ref_pkname target = Some pk_value
         /\ truthy pk_value = false)
  /\ (_remove_pk_from_kwargs pet_meta payload_unsaved_owner).1 = Return tt
  /\ is_ModelPersistenceError
       (ModelPersistenceError "You cannot save owner model without pk set!") = true.
Proof.
  destruct (C3_unsaved_reference_check pet_meta)
    as (Hstep & Horigin & Htotal & Honly).
  split_and!.
  - apply (Hstep "owner" (ForeignKey_field "owner" owner_ref) owner_ref
             payload_saved_owner "owner" {[ "id" := VInt 7 ]} (VInt 7)).
    + exact pet_owner_is_owning_foreign_key.
    + vm_compute. reflexivity.
    + vm_compute. reflexivity.
    + reflexivity.
  - apply (Hstep "owner" (ForeignKey_field "owner" owner_ref) owner_ref
             payload_unsaved_owner "owner" {[ "id" := VNone ]} VNone).
    + exact pet_owner_is_owning_foreign_key.
    + vm_compute. reflexivity.
    + vm_compute. reflexivity.
    + reflexivity.
  - apply (Horigin payload_unsaved_owner
             (ModelPersistenceError "You cannot save owner model without pk set!")).
    + vm_compute. reflexivity.
    + reflexivity.
  - apply (Htotal eq_refl payload_unsaved_owner).
  - apply (Honly eq_refl payload_unsaved_owner _ {[ "owner" := unsaved_owner ]}).
    + vm_compute. reflexivity.
    + vm_compute. reflexivity.
Defined.

(** C3, as the specification words it, fails in its last part: the
    unsaved-instance check is not the only point at which the pipeline
    fails.  A relation that holds a bare key, here [5], makes stage 2 call
    [.get] on an integer, which raises [AttributeError]. *)
Lemma C3_counterexample_bare_key :
  ~ (forall (m : ModelMeta) (p p' : gmap string value) (e : exn),
        wf_meta m = true ->
        prepare_model_to_save m p = (Raise e, p') ->
        is_ModelPersistenceError e = true).
Proof.
  intros Hclaim.
  assert (Hrun : prepare_model_to_save pet_meta payload_owner_key
                 = (Raise (AttributeError "get"), payload_owner_key))
    by (vm_compute; reflexivity).
  apply Hclaim in Hrun; [|reflexivity]. discriminate.
Qed.

(** C5: for an owning foreign key, the iteration of stage 2 removes the
    key when its value is false and not [None] (an empty list, an empty
    mapping, [0], [False], an empty string) and leaves the key with its
    [None] when the value is [None]; so is the key when stage 2 returns. *)
Theorem C5_falsy_relation_dropped_None_kept (m : ModelMeta) (field : string)
  (f : BaseField.t) (target : ModelRef) :
  owning_foreign_key m field f target ->
  (forall p v, p !! field = Some v -> truthy v = false -> is_None v = false ->
               substitute_model_with_pk m field p = (Return tt, delete field p))
  /\ (forall p, p !! field = Some VNone ->
                substitute_model_with_pk m field p = (Return tt, p))
  /\ (NoDup (map fst (model_fields m)) ->
      forall p p' v,
        substitute_models_with_pks m p = (Return tt, p') ->
        p !! field = Some v -> truthy v = false ->
        p' !! field = if is_None v then Some VNone else None).
Proof.
  intros Hown.
  assert (Hdrop : forall p v,
             p !! field = Some v -> truthy v = false -> is_None v = false ->
             substitute_model_with_pk m field p = (Return tt, delete field p)).
  { intros p v Hv Hfalse Hnone. destruct Hown as (Hget & _ & _ & Hto).
    unfold_step. rewrite Hv, Hget. simpl. rewrite Hnone, Hto. simpl.
    rewrite Hfalse. by destruct v. }
  split_and!; [exact Hdrop|apply substitute_model_with_pk_None|].
  intros Hkeys p p' v Hrun Hv Hfalse.
  destruct (substitute_loop_Return_at m (extract_related_names m)
              (extract_related_names_NoDup m Hkeys) p p' field Hrun
              (owning_foreign_key_related _ _ _ _ Hown)) as [_ ->].
  destruct (is_None v) eqn:Hnone.
  - destruct v; try discriminate.
    by rewrite substitute_model_with_pk_None.
  - rewrite (Hdrop p v Hv Hfalse Hnone). simpl. apply lookup_delete_eq.
Qed.

Lemma C5_falsy_relation_dropped_None_kept_witness :
  substitute_model_with_pk pet_meta "owner" payload_empty_owner
  = (Return tt, delete "owner" payload_empty_owner)
  /\ substitute_model_with_pk pet_meta "owner" payload_no_owner
     = (Return tt, payload_no_owner)
  /\ ({[ "name" := VStr "rex" ]} : gmap string value) !! "owner"
     = (if is_None (VList []) then Some VNone else None).
Proof.
  destruct (C5_falsy_relation_dropped_None_kept pet_meta "owner"
              (ForeignKey_field "owner" owner_ref) owner_ref
              pet_owner_is_owning_foreign_key) as (Hdrop & Hkeep & Hstage).
  split_and!.
  - apply (Hdrop payload_empty_owner (VList [])).
    + vm_compute. reflexivity.
    + reflexivity.
    + reflexivity.
  - apply (Hkeep payload_no_owner). vm_compute. reflexivity.
  - apply (Hstage pet_fields_NoDup payload_empty_owner
             {[ "name" := VStr "rex" ]} (VList [])).
    + vm_compute. reflexivity.
    + vm_compute. reflexivity.
    + reflexivity.
Defined.

(** C5, as the specification words it, fails on [None]: stage 2 does not
    remove a relation key that holds [None]. *)
Lemma C5_counterexample_None_kept :
  ~ (forall (m : ModelMeta) (field : string) (f : BaseField.t)
            (target : ModelRef) (p : gmap string value) (v : value),
        owning_foreign_key m field f target ->
        p !! field = Some v ->
        truthy v = false ->
        is_Model v = false ->
        (substitute_models_with_pks m p).2 !! field = None).
Proof.
  intros Hclaim.
  pose proof (Hclaim pet_meta "owner" (ForeignKey_field "owner" owner_ref)
                owner_ref payload_no_owner VNone pet_owner_is_owning_foreign_key)
    as Hgone.
  assert (Hrun : substitute_models_with_pks pet_meta payload_no_owner
                 = (Return tt, payload_no_owner)) by (vm_compute; reflexivity).
  rewrite Hrun in Hgone.
  assert (Hthere : payload_no_owner !! "owner" = Some VNone)
    by (vm_compute; reflexivity).
  specialize (Hgone Hthere eq_refl eq_refl). simpl in Hgone. congruence.
Qed.

(** C10: for an owning foreign key whose value is a non-empty mapping
    without the target's primary-key key, the iteration of stage 2 returns
    and leaves [None] under the key; for a non-empty list of mappings it
    returns and leaves the list of what each mapping holds under the
    primary-key key, which is [None] for every mapping without it.  No
    error is raised, whereas an instance whose primary key is [None] raises
    [ModelPersistenceError].  When stage 2 returns, the key holds those
    values. *)
Theorem C10_nested_mapping_without_pk_becomes_None (m : ModelMeta)
  (field : string) (f : BaseField.t) (target : ModelRef) :
  owning_foreign_key m field f target ->
  (forall p d,
      p !! field = Some (VDict d) ->
      truthy (VDict d) = true ->
      d !! ref_pkname target = None ->
      substitute_model_with_pk m field p = (Return tt, <[field := VNone]> p))
  /\ (forall p targets,
         p !! field = Some (VList targets) ->
         targets <> [] ->
         forallb is_dict targets = true ->
         substitute_model_with_pk m field p
         = (Return tt,
            <[field := VList (map (pk_of_mapping (ref_pkname target)) targets)]> p)
         /\ (Forall (fun t => exists d, t = VDict d /\ d !! ref_pkname target = None)
                    targets ->
             map (pk_of_mapping (ref_pkname target)) targets
             = replicate (length targets) VNone))
  /\ (forall p cls attrs,
         p !! field = Some (VModel cls attrs) ->
         attrs !! ref_pkname target = Some VNone ->
         exists msg,
           substitute_model_with_pk m field p
           = (Raise (ModelPersistenceError msg), p))
  /\ (NoDup (map fst (model_fields m)) ->
      forall p p',
        substitute_models_with_pks m p = (Return tt, p') ->
        (forall d, p !! field = Some (VDict d) ->
                   truthy (VDict d) = true ->
                   d !! ref_pkname target = None ->
                   p' !! field = Some VNone)
        /\ (forall targets,
               p !! field = Some (VList targets) ->
               targets <> [] ->
               Forall (fun t => exists d, t = VDict d
                                          /\ d !! ref_pkname target = None)
                      targets ->
               p' !! field = Some (VList (replicate (length targets) VNone)))).
Proof.
  intros Hown.
  assert (Hnone : forall targets,
             Forall (fun t => exists d, t = VDict d
                                        /\ d !! ref_pkname target = None)
                    targets ->
             forallb is_dict targets = true
             /\ map (pk_of_mapping (ref_pkname target)) targets
                = replicate (length targets) VNone).
  { induction 1 as [|t ts (d & -> & Hd) _ [IHd IHm]]; [done|].
    simpl. rewrite Hd, IHd, IHm. done. }
  assert (Hdict : forall p d,
             p !! field = Some (VDict d) ->
             truthy (VDict d) = true ->
             d !! ref_pkname target = None ->
             substitute_model_with_pk m field p
             = (Return tt, <[field := VNone]> p)).
  { intros p d Hv Htrue Hd. destruct Hown as (Hget & _ & _ & Hto).
    unfold_step. rewrite Hv, Hget. simpl. rewrite Hto. simpl.
    simpl in Htrue. rewrite Htrue. simpl. by rewrite Hd. }
  assert (Hlist : forall p targets,
             p !! field = Some (VList targets) ->
             targets <> [] ->
             forallb is_dict targets = true ->
             substitute_model_with_pk m field p
             = (Return tt,
                <[field := VList (map (pk_of_mapping (ref_pkname target))
                                      targets)]> p)).
  { intros p targets Hv Hne Hdicts. destruct Hown as (Hget & _ & _ & Hto).
    unfold_step. rewrite Hv, Hget. simpl. rewrite Hto. simpl.
    rewrite (list_get_dicts _ _ Hdicts). by destruct targets. }
  split_and!.
  - exact Hdict.
  - intros p targets Hv Hne Hdicts. split; [by apply Hlist|].
    intros Hall. by apply Hnone.
  - intros p cls attrs Hv Hattr. destruct Hown as (Hget & _ & _ & Hto).
    eexists. unfold_step. rewrite Hv, Hget. simpl. rewrite Hto. simpl.
    rewrite Hattr. reflexivity.
  - intros Hkeys p p' Hrun.
    destruct (substitute_loop_Return_at m (extract_related_names m)
                (extract_related_names_NoDup m Hkeys) p p' field Hrun
                (owning_foreign_key_related _ _ _ _ Hown)) as [_ ->].
    split.
    + intros d Hv Htrue Hd. rewrite (Hdict p d Hv Htrue Hd). simpl.
      apply lookup_insert_eq.
    + intros targets Hv Hne Hall. destruct (Hnone targets Hall) as [Hdicts <-].
      rewrite (Hlist p targets Hv Hne Hdicts). simpl. apply lookup_insert_eq.
Qed.

Lemma C10_nested_mapping_without_pk_becomes_None_witness :
  substitute_model_with_pk pet_meta "owner" payload_nested_owner
  = (Return tt, <["owner" := VNone]> payload_nested_owner)
  /\ substitute_model_with_pk pet_meta "owner" payload_nested_owners
     = (Return tt,
        <["owner" := VList (map (pk_of_mapping (ref_pkname owner_ref))
                                nested_owners)]>
          payload_nested_owners)
  /\ (exists msg,
         substitute_model_with_pk pet_meta "owner" payload_unsaved_owner
         = (Raise (ModelPersistenceError msg), payload_unsaved_owner))
  /\ (<["owner" := VNone]> payload_nested_owner : gmap string value) !! "owner"
     = Some VNone.
Proof.
  destruct (C10_nested_mapping_without_pk_becomes_None pet_meta "owner"
              (ForeignKey_field "owner" owner_ref) owner_ref
              pet_owner_is_owning_foreign_key)
    as (Hdict & Hlist & Hmodel & Hstage).
  split_and!.
  - apply (Hdict payload_nested_owner {[ "name" := VStr "ann" ]}).
    + vm_compute. reflexivity.
    + vm_compute. reflexivity.
    + vm_compute. reflexivity.
  - assert (Hv : payload_nested_owners !! "owner" = Some (VList nested_owners))
      by (vm_compute; reflexivity).
    assert (Hne : nested_owners <> []) by discriminate.
    apply (proj1 (Hlist payload_nested_owners nested_owners Hv Hne eq_refl)).
  - apply (Hmodel payload_unsaved_owner "owner" {[ "id" := VNone ]}).
    + vm_compute. reflexivity.
    + vm_compute. reflexivity.
  - assert (Hrun : substitute_models_with_pks pet_meta payload_nested_owner
                   = (Return tt, <["owner" := VNone]> payload_nested_owner))
      by (vm_compute; reflexivity).
    apply (proj1 (Hstage pet_fields_NoDup _ _ Hrun) {[ "name" := VStr "ann" ]}).
    + vm_compute. reflexivity.
    + vm_compute. reflexivity.
    + vm_compute. reflexivity.
Defined.

(** * Further properties of the code *)

(** ** The column compiler *)

Lemma pk_flagged_In n f fields :
  In (n, f) (pk_flagged fields) ->
  In (n, f) fields /\ BaseField.primary_key f = true.
Proof. unfold pk_flagged. intros Hin. by apply filter_In in Hin. Qed.

(** The compiler returns what its loop returns on the dictionary it leaves
    behind, which is the caller's unless that was empty. *)
Lemma sqlalchemy_columns_Return new_model st st' pk cols :
  sqlalchemy_columns_from_model_fields new_model st = (Return (pk, cols), st') ->
  columns_loop st'.1 None [] = Return (pk, cols)
  /\ (st.1 <> [] -> st' = st).
Proof.
  destruct st as [fields lg]. intros Hrun.
  destruct (Nat.eq_dec (length fields) 0) as [Hlen|Hlen].
  - apply nil_length_inv in Hlen as ->.
    rewrite sqlalchemy_columns_empty in Hrun. by injection Hrun as <- <- <-.
  - assert (Hne : fields <> []) by (by intros ->).
    rewrite sqlalchemy_columns_nonempty in Hrun by done.
    injection Hrun as Hres <-. split; [|done]. simpl.
    by destruct (validate_related_names_in_relations _ _).
Qed.

(** X1: when the compiler returns, the primary-key name it returns is
    [None] exactly when no field of the dictionary is flagged as primary
    key (it does not raise for a missing key itself); otherwise it is the
    name of the one flagged field, which is an entry of the dictionary and
    is not pydantic-only. *)
Theorem X1_compiler_primary_key_name
  (new_model : string) (st st' : list (string * BaseField.t) * list string)
  (pk : option string) (cols : list Column) :
  sqlalchemy_columns_from_model_fields new_model st = (Return (pk, cols), st') ->
  (pk = None <-> pk_flagged st'.1 = [])
  /\ (forall n, pk = Some n ->
                exists f, pk_flagged st'.1 = [(n, f)]
                          /\ In (n, f) st'.1
                          /\ BaseField.primary_key f = true
                          /\ BaseField.pydantic_only f = false).
Proof.
  intros [Hloop _]%sqlalchemy_columns_Return.
  apply columns_loop_Return_pk in Hloop
    as [[Hnone ->]|(n & f & Hone & Hpers & ->)].
  - split; [done|]. intros n [=].
  - split; [split; [done|by rewrite Hone]|].
    intros n' [= <-]. exists f.
    assert (Hin : In (n, f) (pk_flagged st'.1)) by (rewrite Hone; by left).
    apply pk_flagged_In in Hin as [Hin Hpk]. done.
Qed.

Lemma X1_compiler_primary_key_name_witness :
  (Some "id" = None <-> pk_flagged (pet_fields, @nil string).1 = [])
  /\ (forall n, Some "id" = Some n ->
                exists f, pk_flagged (pet_fields, @nil string).1 = [(n, f)]
                          /\ In (n, f) (pet_fields, @nil string).1
                          /\ BaseField.primary_key f = true
                          /\ BaseField.pydantic_only f = false).
Proof.
  apply (X1_compiler_primary_key_name "Pet" (pet_fields, []) (pet_fields, [])
           (Some "id") (db_columns pet_fields)).
  vm_compute. reflexivity.
Defined.

Lemma db_columns_primary_keys fields :
  (length (List.filter col_primary_key (db_columns fields))
   <= length (pk_flagged fields))%nat.
Proof.
  unfold db_columns, pk_flagged.
  induction fields as [|[n f] rest IH]; simpl; [done|].
  destruct (is_db_column f); simpl;
    destruct (BaseField.primary_key f); simpl; lia.
Qed.

Lemma db_columns_not_nullable fields :
  Forall (fun c => col_primary_key c = true -> col_nullable c = false)
         (db_columns fields).
Proof.
  unfold db_columns. apply Forall_forall. intros c Hc.
  apply list_elem_of_In, in_map_iff in Hc as (nf & <- & _). simpl.
  intros ->. apply andb_false_r.
Qed.

(** X2: the columns the compiler returns have at most one primary-key
    column, none when it returns no primary-key name, and a primary-key
    column is never nullable, whatever its field declares. *)
Theorem X2_compiler_primary_key_columns
  (new_model : string) (st st' : list (string * BaseField.t) * list string)
  (pk : option string) (cols : list Column) :
  sqlalchemy_columns_from_model_fields new_model st = (Return (pk, cols), st') ->
  (length (List.filter col_primary_key cols) <= 1)%nat
  /\ (pk = None -> List.filter col_primary_key cols = [])
  /\ Forall (fun c => col_primary_key c = true -> col_nullable c = false) cols.
Proof.
  intros [Hloop _]%sqlalchemy_columns_Return.
  pose proof (columns_loop_columns _ _ _ _ _ Hloop) as Hcols. simpl in Hcols.
  subst cols.
  pose proof (db_columns_primary_keys st'.1) as Hlen.
  apply columns_loop_Return_pk in Hloop
    as [[Hnone ->]|(n & f & Hone & Hpers & ->)].
  - rewrite Hnone in Hlen. simpl in Hlen. split_and!.
    + lia.
    + intros _. by apply nil_length_inv, Nat.le_0_r.
    + apply db_columns_not_nullable.
  - rewrite Hone in Hlen. simpl in Hlen. split_and!; [done|done|].
    apply db_columns_not_nullable.
Qed.

Lemma X2_compiler_primary_key_columns_witness :
  (length (List.filter col_primary_key (db_columns pet_fields)) <= 1)%nat
  /\ (Some "id" = None -> List.filter col_primary_key (db_columns pet_fields) = [])
  /\ Forall (fun c => col_primary_key c = true -> col_nullable c = false)
            (db_columns pet_fields).
Proof.
  apply (X2_compiler_primary_key_columns "Pet" (pet_fields, []) (pet_fields, [])
           (Some "id") (db_columns pet_fields)).
  vm_compute. reflexivity.
Defined.

Lemma get_column_name f :
  col_name (BaseField.get_column f (BaseField.get_alias f)) = BaseField.get_alias f.
Proof.
  unfold BaseField.get_column, BaseField.get_alias. simpl.
  destruct (BaseField.alias f) as [a|]; [|done]. simpl.
  by destruct (String.eqb a "").
Qed.

(** X3: the names of the columns the compiler returns are the aliases of
    the fields that have a column, in the order of the dictionary: the
    alias where one is set and not empty, the field name otherwise. *)
Theorem X3_compiler_column_names
  (new_model : string) (st st' : list (string * BaseField.t) * list string)
  (pk : option string) (cols : list Column) :
  sqlalchemy_columns_from_model_fields new_model st = (Return (pk, cols), st') ->
  map col_name cols
  = map (fun nf : string * BaseField.t =>
           match BaseField.alias nf.2 with
           | Some a => if String.eqb a "" then BaseField.name nf.2 else a
           | None => BaseField.name nf.2
           end)
        (List.filter (fun nf => is_db_column nf.2) st'.1).
Proof.
  intros [Hloop _]%sqlalchemy_columns_Return.
  pose proof (columns_loop_columns _ _ _ _ _ Hloop) as Hcols. simpl in Hcols.
  subst cols. unfold db_columns. rewrite map_map. apply map_ext.
  intros nf. rewrite (get_column_name nf.2). unfold BaseField.get_alias.
  destruct (BaseField.alias nf.2) as [a|]; [|done]. simpl.
  by destruct (String.eqb a "").
Qed.

Lemma X3_compiler_column_names_witness :
  map col_name (db_columns pet_fields)
  = map (fun nf : string * BaseField.t =>
           match BaseField.alias nf.2 with
           | Some a => if String.eqb a "" then BaseField.name nf.2 else a
           | None => BaseField.name nf.2
           end)
        (List.filter (fun nf => is_db_column nf.2) (pet_fields, @nil string).1).
Proof.
  apply (X3_compiler_column_names "Pet" (pet_fields, []) (pet_fields, [])
           (Some "id") (db_columns pet_fields)).
  vm_compute. reflexivity.
Defined.

Lemma sqlalchemy_columns_Raise new_model st st' e :
  sqlalchemy_columns_from_model_fields new_model st = (Raise e, st') ->
  is_ModelDefinitionError e = true /\ st' = st.
Proof.
  destruct st as [fields lg]. intros Hrun.
  destruct (Nat.eq_dec (length fields) 0) as [Hlen|Hlen].
  - apply nil_length_inv in Hlen as ->.
    rewrite sqlalchemy_columns_empty in Hrun. discriminate.
  - assert (Hne : fields <> []) by (by intros ->).
    rewrite sqlalchemy_columns_nonempty in Hrun by done.
    injection Hrun as Hres <-. split; [|done].
    unfold validate_related_names_in_relations in Hres.
    destruct (bool_decide _).
    + by apply columns_loop_Raise in Hres.
    + by injection Hres as <-.
Qed.

(** X4: when the compiler raises, what it raises is a
    [ModelDefinitionError], and it has left the dictionary and the log as
    they were. *)
Theorem X4_compiler_raises_only_definition_errors
  (new_model : string) (st st' : list (string * BaseField.t) * list string)
  (e : exn) :
  sqlalchemy_columns_from_model_fields new_model st = (Raise e, st') ->
  is_ModelDefinitionError e = true /\ st' = st.
Proof.
  intros Hrun. split.
  - destruct (Nat.eq_dec (length st.1) 0) as [Hlen|Hlen].
    + destruct st as [fields lg]. apply nil_length_inv in Hlen. simpl in Hlen.
      subst fields. rewrite sqlalchemy_columns_empty in Hrun. discriminate.
    + by apply sqlalchemy_columns_Raise in Hrun as [Hdef _].
  - by apply sqlalchemy_columns_Raise in Hrun as [_ Hsame].
Qed.

Lemma X4_compiler_raises_only_definition_errors_witness :
  is_ModelDefinitionError
    (ModelDefinitionError "Only one primary key column is allowed.") = true
  /\ ([("id", Integer "id" true); ("uid", Integer "uid" true)], @nil string)
     = ([("id", Integer "id" true); ("uid", Integer "uid" true)], @nil string).
Proof.
  apply (X4_compiler_raises_only_definition_errors "Pet"
           ([("id", Integer "id" true); ("uid", Integer "uid" true)], [])).
  vm_compute. reflexivity.
Defined.

(** ** [populate_meta_tablename_columns_and_pk] and table assembly *)

Ltac unfold_populate_meta :=
  unfold populate_meta_tablename_columns_and_pk, columns_of_meta_fields, bind,
    modify, get_state, ret, raise in *.

(** What the call leaves of [Meta.tablename], of the registry, and of
    columns and primary key when it raises. *)
Lemma populate_meta_frame name s :
  let s' := (populate_meta_tablename_columns_and_pk name s).2 in
  tablename (meta s')
  = Some (default (lower name +:+ "s") (tablename (meta s)))
  /\ registry s' = registry s
  /\ constraints (meta s') = constraints (meta s)
  /\ table (meta s') = table (meta s)
  /\ (forall e, (populate_meta_tablename_columns_and_pk name s).1 = Raise e ->
                columns (meta s') = columns (meta s)
                /\ pkname (meta s') = pkname (meta s)).
Proof.
  unfold_populate_meta. simpl.
  destruct (columns (meta s)) as [cols|] eqn:Hcols.
  - destruct (pkname (meta s)) as [pk|] eqn:Hpk; simpl; [|done].
    split_and!; try done.
  - destruct (sqlalchemy_columns_from_model_fields _ _)
      as [[[[pk|] cols]|e] [fs lg]]; simpl; done.
Qed.


(** X6: on a [Meta] that already has columns and a primary-key name the
    call returns and keeps both; it does not compile again: the field
    dictionary is not read (it may even hold two primary keys), nothing is
    logged and nothing is registered. *)
Theorem X6_existing_columns_are_kept (name : string) (s : DefState)
  (cols : list Column) (pk : string) :
  columns (meta s) = Some cols ->
  pkname (meta s) = Some pk ->
  let run := populate_meta_tablename_columns_and_pk name s in
  run.1 = Return tt
  /\ columns (meta run.2) = Some cols
  /\ pkname (meta run.2) = Some pk
  /\ model_fields (meta run.2) = model_fields (meta s)
  /\ log run.2 = log s
  /\ registry run.2 = registry s.
Proof.
  intros Hcols Hpk. unfold_populate_meta. simpl. rewrite Hcols, Hpk. done.
Qed.

Lemma X6_existing_columns_are_kept_witness :
  let s := def_state (set_model_fields
                        [("id", Integer "id" true); ("uid", Integer "uid" true)]
                        pet_meta_compiled) in
  let run := populate_meta_tablename_columns_and_pk "Pet" s in
  run.1 = Return tt
  /\ columns (meta run.2) = columns pet_meta_compiled
  /\ pkname (meta run.2) = Some "id"
  /\ model_fields (meta run.2) = model_fields (meta s)
  /\ log run.2 = log s
  /\ registry run.2 = registry s.
Proof.
  apply (X6_existing_columns_are_kept "Pet"
           (def_state (set_model_fields
                         [("id", Integer "id" true); ("uid", Integer "uid" true)]
                         pet_meta_compiled))).
  - reflexivity.
  - reflexivity.
Defined.

(** When the call returns, [Meta] has its table name, its columns and its
    primary-key name. *)
Lemma populate_meta_Return name s s' :
  populate_meta_tablename_columns_and_pk name s = (Return tt, s') ->
  exists tn cols pk,
    tablename (meta s') = Some tn
    /\ columns (meta s') = Some cols
    /\ pkname (meta s') = Some pk
    /\ (columns (meta s) = None ->
        exists f, In (pk, f) (model_fields (meta s'))
                  /\ BaseField.primary_key f = true
                  /\ BaseField.pydantic_only f = false).
Proof.
  unfold_populate_meta. simpl.
  destruct (columns (meta s)) as [cols|] eqn:Hcols.
  - destruct (pkname (meta s)) as [pk|] eqn:Hpk; simpl; [|done].
    intros [= <-]. simpl. by eexists _, _, _.
  - destruct (sqlalchemy_columns_from_model_fields _ _)
      as [[[[pk|] cols]|e] [fs lg]] eqn:Hrun; simpl; try done.
    intros [= <-]. simpl. eexists _, _, _. split_and!; try done. intros _.
    apply sqlalchemy_columns_Return in Hrun as [Hloop _]. simpl in Hloop.
    apply columns_loop_Return_pk in Hloop
      as [[_ [=]]|(n & f & Hone & Hpers & [= <-])].
    exists f.
    assert (Hin : In (pk, f) (pk_flagged fs)) by (rewrite Hone; by left).
    apply pk_flagged_In in Hin as [Hin Hflag]. done.
Qed.

(** X7: the call is idempotent: once it has returned, a second call with
    the same name returns and changes nothing. *)
Theorem X7_populate_meta_idempotent (name : string) (s s' : DefState) :
  populate_meta_tablename_columns_and_pk name s = (Return tt, s') ->
  populate_meta_tablename_columns_and_pk name s' = (Return tt, s').
Proof.
  intros Hrun.
  destruct (populate_meta_Return _ _ _ Hrun) as (tn & cols & pk & Htn & Hc & Hp & _).
  destruct s' as [[tn' pk' cols' fs cons tb] reg lg]. simpl in Htn, Hc, Hp.
  subst. reflexivity.
Qed.

Lemma X7_populate_meta_idempotent_witness :
  let s' := (populate_meta_tablename_columns_and_pk
               "Pet" (def_state pet_meta_declared)).2 in
  populate_meta_tablename_columns_and_pk "Pet" s' = (Return tt, s').
Proof.
  apply (X7_populate_meta_idempotent "Pet" (def_state pet_meta_declared)).
  vm_compute. reflexivity.
Defined.

Lemma In_odict_get_is_Some {V} (k : string) (v : V) (d : list (string * V)) :
  In (k, v) d -> is_Some (odict_get k d).
Proof.
  induction d as [|[k' v'] d IH]; simpl; [done|].
  intros [[= -> ->]|Hin].
  - by rewrite String.eqb_refl.
  - destruct (String.eqb k k'); [done|]. by apply IH.
Qed.

(** X8: column compilation makes stage 1 of save preparation safe: on the
    [Meta] that a returning call leaves, [Meta.pkname] is a key of the field
    dictionary, so [_remove_pk_from_kwargs] returns on every payload (no
    [KeyError]). *)
Theorem X8_compiled_meta_has_its_primary_key (name : string) (s s' : DefState) :
  columns (meta s) = None ->
  populate_meta_tablename_columns_and_pk name s = (Return tt, s') ->
  (exists pk, pkname (meta s') = Some pk
              /\ is_Some (odict_get pk (model_fields (meta s'))))
  /\ forall p, (_remove_pk_from_kwargs (meta s') p).1 = Return tt.
Proof.
  intros Hnone Hrun.
  destruct (populate_meta_Return _ _ _ Hrun) as (tn & cols & pk & _ & _ & Hp & Hpk).
  destruct (Hpk Hnone) as (f & Hin & _).
  destruct (In_odict_get_is_Some _ _ _ Hin) as [f' Hget].
  split; [by exists pk; rewrite Hget|].
  intros p. unfold_remove_pk. rewrite Hp. simpl. rewrite Hget. simpl.
  by case_match.
Qed.

Lemma X8_compiled_meta_has_its_primary_key_witness :
  let s' := (populate_meta_tablename_columns_and_pk
               "Pet" (def_state pet_meta_declared)).2 in
  (exists pk, pkname (meta s') = Some pk
              /\ is_Some (odict_get pk (model_fields (meta s'))))
  /\ forall p, (_remove_pk_from_kwargs (meta s') p).1 = Return tt.
Proof.
  apply (X8_compiled_meta_has_its_primary_key "Pet" (def_state pet_meta_declared)).
  - reflexivity.
  - vm_compute. reflexivity.
Defined.





(** ** Field defaults *)

(** X11: off autoincrement primary keys, [default_value] and [get_default]
    agree: the value [get_default] returns is the one the [FieldInfo] of
    [default_value] stands for (its default, or what its factory returns),
    and is [None] when [default_value] returns no [FieldInfo], also with a
    server default that the flag leaves out. *)
Theorem X11_default_value_agrees_with_get_default (f : BaseField.t)
  (use_server : bool) :
  BaseField.is_auto_primary_key f = false ->
  BaseField.get_default f use_server = resolve (default_value f use_server)
  /\ (default_value f use_server = None
      <-> BaseField.has_default f use_server = false).
Proof.
  intros Hauto.
  unfold default_value, BaseField.get_default, BaseField.has_default, resolve.
  rewrite Hauto.
  destruct (BaseField.default f) as [| | | | | | |r] eqn:Hd;
    destruct (BaseField.server_default f) as [| | | | | | |r'] eqn:Hs;
    destruct use_server; simpl; split; try done; split; done.
Qed.

Lemma X11_default_value_agrees_with_get_default_witness :
  BaseField.get_default status_field false
  = resolve (default_value status_field false)
  /\ (default_value status_field false = None
      <-> BaseField.has_default status_field false = false).
Proof.
  apply (X11_default_value_agrees_with_get_default status_field false).
  reflexivity.
Defined.

(** X12: [default_value] of an autoincrement primary key is a [FieldInfo]
    with default [None], whatever default the field declares; and a
    [FieldInfo] it returns has either a default or a default factory,
    never both, the factory being a callable of the field. *)
Theorem X12_default_value_shape (f : BaseField.t) (use_server : bool) :
  (BaseField.primary_key f = true -> BaseField.autoincrement f = true ->
   default_value f use_server = Some (Field_default VNone))
  /\ (forall info, default_value f use_server = Some info ->
        match fi_default_factory info with
        | Some factory =>
            fi_default info = None /\ callable factory = true
            /\ (factory = BaseField.default f
                \/ factory = BaseField.server_default f)
        | None => exists d, fi_default info = Some d /\ callable d = false
        end).
Proof.
  split.
  - intros Hpk Hauto. unfold default_value, BaseField.is_auto_primary_key.
    by rewrite Hpk, Hauto.
  - intros info. unfold default_value.
    destruct (BaseField.is_auto_primary_key f).
    + intros [= <-]. simpl. by exists VNone.
    + destruct (BaseField.has_default f use_server); [|done].
      destruct (callable _) eqn:Hcall; intros [= <-]; simpl.
      * split_and!; try done.
        destruct (negb (is_None (BaseField.default f))); [by left|by right].
      * by eexists.
Qed.

Lemma X12_default_value_shape_witness :
  default_value (Integer "id" true) false = Some (Field_default VNone).
Proof.
  apply (proj1 (X12_default_value_shape (Integer "id" true) false));
    reflexivity.
Defined.

(** ** Save preparation: stage 1 *)

(** X13: [_remove_pk_from_kwargs] removes nothing but the primary-key
    entry, and that only when it holds [None]: an entry with another value
    stays, as does every other key; running it again on its result changes
    nothing.  When [Meta.pkname] is no key of the field dictionary it
    raises [KeyError] and changes nothing. *)
Theorem X13_remove_pk_only_None (m : ModelMeta) (p : gmap string value) :
  let run := _remove_pk_from_kwargs m p in
  (forall k v, p !! k = Some v -> is_None v = false -> run.2 !! k = Some v)
  /\ (forall k, pkname m <> Some k -> run.2 !! k = p !! k)
  /\ (forall k, p !! k = None -> run.2 !! k = None)
  /\ _remove_pk_from_kwargs m run.2 = (run.1, run.2)
  /\ (forall pk, pkname m = Some pk -> odict_get pk (model_fields m) = None ->
                 run = (Raise (KeyError pk), p)).
Proof.
  cbv zeta. split_and!.
  - intros k v Hv Hnone. unfold_remove_pk.
    repeat case_match; simplify_eq; simpl; try done.
    rewrite lookup_delete_ne; [done|]. intros <-.
    simplify_eq.
    match goal with
    | H : is_None _ && _ = true |- _ => apply andb_true_iff in H as [Hisnone _]
    end.
    congruence.
  - intros k Hk. by apply remove_pk_frame.
  - intros k Hk. by apply remove_pk_no_new_key.
  - unfold_remove_pk.
    repeat (case_match; simplify_eq; simpl in *; try done);
      rewrite ?lookup_delete_eq in *; simplify_eq; try done; try congruence.
  - intros pk Hpk Hget. unfold_remove_pk. by rewrite Hpk; simpl; rewrite Hget.
Qed.

Lemma X13_remove_pk_only_None_witness :
  (_remove_pk_from_kwargs pet_meta payload_saved_owner).2 !! "owner"
  = Some saved_owner
  /\ _remove_pk_from_kwargs empty_meta payload_saved_owner
     = (Raise (AttributeError "pkname"), payload_saved_owner)
  /\ _remove_pk_from_kwargs
       {| tablename := None; pkname := Some "uid"; columns := None;
          model_fields := pet_fields; constraints := []; table := None |}
       payload_saved_owner
     = (Raise (KeyError "uid"), payload_saved_owner).
Proof.
  split_and!.
  - apply (proj1 (X13_remove_pk_only_None pet_meta payload_saved_owner)
             "owner" saved_owner).
    + vm_compute. reflexivity.
    + reflexivity.
  - vm_compute. reflexivity.
  - apply (proj2 (proj2 (proj2 (proj2
             (X13_remove_pk_only_None
                {| tablename := None; pkname := Some "uid"; columns := None;
                   model_fields := pet_fields; constraints := [];
                   table := None |}
                payload_saved_owner)))) "uid").
    + reflexivity.
    + reflexivity.
Defined.

(** ** Save preparation: the defaults stage *)

(** What an iteration leaves under the key of its field, from what it
    found there. *)
Lemma populate_default_value_at nf p :
  (populate_default_value nf p).2 !! nf.1
  = match p !! nf.1 with
    | Some v =>
        if negb (is_None (BaseField.server_default nf.2)) && negb (truthy v)
        then None else Some v
    | None =>
        if BaseField.has_default nf.2 false
           && negb (BaseField.pydantic_only nf.2)
           && (is_None (BaseField.server_default nf.2)
               || truthy (BaseField.get_default nf.2 false))
        then Some (BaseField.get_default nf.2 false) else None
    end.
Proof.
  unfold populate_default_value, bind, get_state, when, modify, ret.
  destruct (p !! nf.1) as [v|] eqn:Hv; simpl; rewrite ?Hv; simpl.
  - destruct (negb (is_None _) && negb (truthy v)); simpl; [|done].
    apply lookup_delete_eq.
  - destruct (BaseField.has_default nf.2 false); simpl;
      destruct (BaseField.pydantic_only nf.2); simpl;
      rewrite ?Hv, ?lookup_insert_eq; simpl;
      destruct (is_None (BaseField.server_default nf.2)); simpl;
      try destruct (truthy (BaseField.get_default nf.2 false)); simpl;
      rewrite ?lookup_delete_eq, ?lookup_insert_eq, ?Hv; done.
Qed.

(** With distinct keys, the stage leaves under the key of a field what the
    iteration for that field leaves when run on the initial dictionary. *)
Lemma populate_default_values_at n f :
  forall fields p,
    NoDup (map fst fields) ->
    In (n, f) fields ->
    (for_each fields populate_default_value p).2 !! n
    = (populate_default_value (n, f) p).2 !! n.
Proof.
  induction fields as [|[n0 f0] rest IH]; intros p Hkeys Hin; [done|].
  simpl in Hkeys. apply NoDup_cons in Hkeys as [Hfresh Hkeys].
  simpl. unfold bind.
  pose proof (populate_default_value_total (n0, f0) p) as Htotal.
  destruct (populate_default_value (n0, f0) p) as [[[]|e] p1] eqn:Hstep;
    simpl in Htotal; [|discriminate].
  destruct Hin as [[= -> ->]|Hin].
  - rewrite Hstep. simpl. apply for_each_frame. intros [n' f'] Hin' q.
    apply populate_default_value_other. simpl. intros ->. apply Hfresh.
    apply list_elem_of_In, in_map_iff. by exists (n, f').
  - assert (Hne : n0 <> n).
    { intros ->. apply Hfresh. apply list_elem_of_In, in_map_iff.
      by exists (n, f). }
    rewrite (IH p1 Hkeys Hin).
    pose proof (populate_default_value_other (n0, f0) n p Hne) as Hother.
    rewrite Hstep in Hother. simpl in Hother.
    pose proof (populate_default_value_at (n, f) p1) as H1.
    pose proof (populate_default_value_at (n, f) p) as H2.
    simpl in H1, H2. rewrite H1, H2. by rewrite Hother.
Qed.

(** X14: for a field whose key is absent from the payload, the defaults
    stage inserts the resolved static default when the field has one and
    is not pydantic-only, provided the field has no server default or the
    default is a true value; otherwise the key stays absent (a false static
    default of a field with a server default is inserted and removed
    again). *)
Theorem X14_absent_key_gets_static_default (m : ModelMeta) (n : string)
  (f : BaseField.t) (p : gmap string value) :
  NoDup (map fst (model_fields m)) ->
  In (n, f) (model_fields m) ->
  p !! n = None ->
  (populate_default_values m p).2 !! n
  = if BaseField.has_default f false
       && negb (BaseField.pydantic_only f)
       && (is_None (BaseField.server_default f)
           || truthy (BaseField.get_default f false))
    then Some (BaseField.get_default f false) else None.
Proof.
  intros Hkeys Hin Habs. unfold populate_default_values.
  rewrite (populate_default_values_at n f _ p Hkeys Hin).
  pose proof (populate_default_value_at (n, f) p) as Hat. simpl in Hat.
  by rewrite Hat, Habs.
Qed.

Lemma ticket_fields_NoDup : NoDup (map fst (model_fields ticket_meta)).
Proof. apply (bool_decide_unpack _). vm_compute. exact I. Defined.

Lemma X14_absent_key_gets_static_default_witness :
  (populate_default_values ticket_meta ∅).2 !! "status"
  = if BaseField.has_default status_field false
       && negb (BaseField.pydantic_only status_field)
       && (is_None (BaseField.server_default status_field)
           || truthy (BaseField.get_default status_field false))
    then Some (BaseField.get_default status_field false) else None.
Proof.
  apply (X14_absent_key_gets_static_default ticket_meta "status" status_field ∅
           ticket_fields_NoDup).
  - simpl. right. left. reflexivity.
  - reflexivity.
Defined.

(** X15: the defaults stage never overwrites a value the payload has: a
    key of a field stays as it is, unless the value is false and the field
    has a server default, in which case the key is removed; a key that is
    no field name is not touched. *)
Theorem X15_present_values_are_kept (m : ModelMeta) (p : gmap string value) :
  (forall n f v,
      NoDup (map fst (model_fields m)) ->
      In (n, f) (model_fields m) ->
      p !! n = Some v ->
      (populate_default_values m p).2 !! n
      = if negb (is_None (BaseField.server_default f)) && negb (truthy v)
        then None else Some v)
  /\ (forall k, ~ In k (map fst (model_fields m)) ->
                (populate_default_values m p).2 !! k = p !! k).
Proof.
  split.
  - intros n f v Hkeys Hin Hv. unfold populate_default_values.
    rewrite (populate_default_values_at n f _ p Hkeys Hin).
    pose proof (populate_default_value_at (n, f) p) as Hat. simpl in Hat.
    by rewrite Hat, Hv.
  - intros k Hk. apply for_each_frame. intros [n f] Hin q.
    apply populate_default_value_other. simpl. intros ->. apply Hk.
    apply in_map_iff. by exists (k, f).
Qed.

Lemma X15_present_values_are_kept_witness :
  (populate_default_values ticket_meta {[ "created_at" := VNone ]}).2
    !! "created_at"
  = (if negb (is_None (BaseField.server_default created_at_field))
        && negb (truthy VNone)
     then None else Some VNone)
  /\ (populate_default_values ticket_meta {[ "created_at" := VNone ]}).2
       !! "note"
     = ({[ "created_at" := VNone ]} : gmap string value) !! "note".
Proof.
  destruct (X15_present_values_are_kept ticket_meta {[ "created_at" := VNone ]})
    as [Hfield Hother].
  split.
  - apply (Hfield "created_at" created_at_field VNone ticket_fields_NoDup).
    + simpl. right. right. left. reflexivity.
    + vm_compute. reflexivity.
  - apply (Hother "note"). simpl. intros [H|[H|[H|[]]]]; discriminate H.
Defined.

(** X16: after the defaults stage the key of a field that has a server
    default is absent or holds a true value: no [None], [0], [False] or
    empty value is sent where the database is to compute the value. *)
Theorem X16_server_default_never_false_value (m : ModelMeta) (n : string)
  (f : BaseField.t) (p : gmap string value) (v : value) :
  NoDup (map fst (model_fields m)) ->
  In (n, f) (model_fields m) ->
  is_None (BaseField.server_default f) = false ->
  (populate_default_values m p).2 !! n = Some v ->
  truthy v = true.
Proof.
  intros Hkeys Hin Hserver. unfold populate_default_values.
  rewrite (populate_default_values_at n f _ p Hkeys Hin).
  pose proof (populate_default_value_at (n, f) p) as Hat. simpl in Hat.
  rewrite Hat, Hserver. simpl.
  destruct (p !! n) as [v0|].
  - destruct (truthy v0) eqn:Htrue; simpl; [|done]. by intros [= <-].
  - destruct (BaseField.has_default f false); simpl; [|done].
    destruct (BaseField.pydantic_only f); simpl; [done|].
    destruct (truthy (BaseField.get_default f false)) eqn:Htrue; [|done].
    by intros [= <-].
Qed.

Lemma X16_server_default_never_false_value_witness :
  truthy (VStr "2020-01-01") = true.
Proof.
  apply (X16_server_default_never_false_value ticket_meta "created_at"
           created_at_field {[ "created_at" := VStr "2020-01-01" ]}
           (VStr "2020-01-01") ticket_fields_NoDup).
  - simpl. right. right. left. reflexivity.
  - reflexivity.
  - vm_compute. reflexivity.
Defined.

(** ** Save preparation: the substitution stage *)

Lemma substitute_loop_keeps_None m names k :
  forall p, p !! k = Some VNone ->
            (for_each names (substitute_model_with_pk m) p).2 !! k = Some VNone.
Proof.
  induction names as [|field names IH]; intros p Hk; [done|].
  simpl. unfold bind.
  assert (Hstep : (substitute_model_with_pk m field p).2 !! k = Some VNone).
  { destruct (decide (k = field)) as [->|Hne].
    - by rewrite substitute_model_with_pk_None.
    - by rewrite substitute_model_with_pk_frame. }
  destruct (substitute_model_with_pk m field p) as [[[]|e] p1]; simpl in Hstep;
    [|done].
  by apply IH.
Qed.

(** X17: whatever names the loop of [substitute_models_with_pks] goes
    through and however it ends, it adds no key to the dictionary, leaves
    every key outside those names as it is, and leaves every key that holds
    [None] with its [None]. *)
Theorem X17_substitution_frame (m : ModelMeta) (names : list string)
  (p : gmap string value) :
  let run := for_each names (substitute_model_with_pk m) p in
  (forall k, ~ In k names -> run.2 !! k = p !! k)
  /\ (forall k, p !! k = None -> run.2 !! k = None)
  /\ (forall k, p !! k = Some VNone -> run.2 !! k = Some VNone).
Proof.
  cbv zeta. split_and!.
  - intros k Hk. by apply substitute_loop_frame.
  - intros k Hk. by apply substitute_loop_no_new_key.
  - intros k Hk. by apply substitute_loop_keeps_None.
Qed.

Lemma X17_substitution_frame_witness :
  (substitute_models_with_pks pet_meta payload_saved_owner).2 !! "name"
  = payload_saved_owner !! "name"
  /\ (substitute_models_with_pks pet_meta payload_saved_owner).2 !! "id" = None
  /\ (substitute_models_with_pks pet_meta payload_no_owner).2 !! "owner"
     = Some VNone.
Proof.
  split_and!.
  - apply (proj1 (X17_substitution_frame pet_meta (extract_related_names pet_meta)
                    payload_saved_owner) "name").
    simpl. intros [H|[]]. discriminate H.
  - apply (proj1 (proj2 (X17_substitution_frame pet_meta
                           (extract_related_names pet_meta)
                           payload_saved_owner)) "id").
    vm_compute. reflexivity.
  - apply (proj2 (proj2 (X17_substitution_frame pet_meta
                           (extract_related_names pet_meta)
                           payload_no_owner)) "owner").
    vm_compute. reflexivity.
Defined.

Lemma list_get_lookup targets key pks :
  list_get targets key = Return pks ->
  length pks = length targets
  /\ forall i d, targets !! i = Some (VDict d) ->
                 pks !! i = Some (default VNone (d !! key)).
Proof.
  revert pks. induction targets as [|target rest IH]; intros pks; simpl.
  - intros [= <-]. split; [done|]. by intros i d.
  - destruct (dict_get target key) as [v|e] eqn:Hget; [|done].
    destruct (list_get rest key) as [vs|e]; [|done].
    intros [= <-]. destruct (IH vs eq_refl) as [Hlen Hat].
    split; [simpl; by rewrite Hlen|].
    intros [|i] d; simpl.
    + intros [= ->]. simpl in Hget. by injection Hget as <-.
    + apply Hat.
Qed.

(** X18: for an owning foreign key whose value is a nested mapping that
    has the target's primary-key key, an iteration of stage 2 replaces the
    mapping by the value under that key; and whenever an iteration returns
    on a non-empty list, the list has become a list of the same length
    whose entries are, position by position, the primary keys of the
    mappings ([None] where a mapping has none): the scalar or sequence
    shape is kept. *)
Theorem X18_nested_mappings_become_keys (m : ModelMeta) (field : string)
  (f : BaseField.t) (target : ModelRef) (p : gmap string value) :
  owning_foreign_key m field f target ->
  (forall d v,
      p !! field = Some (VDict d) ->
      d !! ref_pkname target = Some v ->
      substitute_model_with_pk m field p = (Return tt, <[field := v]> p))
  /\ (forall targets p',
         p !! field = Some (VList targets) ->
         targets <> [] ->
         substitute_model_with_pk m field p = (Return tt, p') ->
         exists pks,
           p' = <[field := VList pks]> p
           /\ length pks = length targets
           /\ forall i d, targets !! i = Some (VDict d) ->
                          pks !! i = Some (default VNone (d !! ref_pkname target))).
Proof.
  intros (Hget & _ & _ & Hto). split.
  - intros d v Hv Hd. unfold_step. rewrite Hv, Hget. simpl. rewrite Hto. simpl.
    assert (Htrue : negb (bool_decide (dom d = ∅)) = true).
    { apply negb_true_iff, bool_decide_eq_false_2. intros Hdom.
      apply dom_empty_inv_L in Hdom. subst d. by rewrite lookup_empty in Hd. }
    rewrite Htrue. simpl. by rewrite Hd.
  - intros targets p' Hv Hne. unfold_step. rewrite Hv, Hget. simpl.
    rewrite Hto. simpl. destruct targets as [|t ts]; [done|].
    destruct (list_get (t :: ts) (ref_pkname target)) as [pks|e] eqn:Hlist;
      [|done].
    intros [= <-]. exists pks. split; [done|].
    by apply list_get_lookup in Hlist.
Qed.

Lemma X18_nested_mappings_become_keys_witness :
  substitute_model_with_pk pet_meta "owner"
    {[ "owner" := VDict {[ "id" := VInt 3; "name" := VStr "ann" ]} ]}
  = (Return tt,
     <["owner" := VInt 3]>
       {[ "owner" := VDict {[ "id" := VInt 3; "name" := VStr "ann" ]} ]}).
Proof.
  apply (proj1 (X18_nested_mappings_become_keys pet_meta "owner"
                  (ForeignKey_field "owner" owner_ref) owner_ref
                  {[ "owner" := VDict {[ "id" := VInt 3; "name" := VStr "ann" ]} ]}
                  pet_owner_is_owning_foreign_key)
           {[ "id" := VInt 3; "name" := VStr "ann" ]} (VInt 3)).
  - vm_compute. reflexivity.
  - vm_compute. reflexivity.
Defined.

Lemma list_get_not_dicts targets key :
  forallb is_dict targets = false ->
  list_get targets key = Raise (AttributeError "get").
Proof.
  induction targets as [|target rest IH]; simpl; [done|].
  destruct target; simpl; try done.
  intros Hrest. by rewrite (IH Hrest).
Qed.

(** X19: stage 2 has no branch for a relation value that is true but is
    neither a model instance, a mapping nor a list of mappings: on a bare
    key such as a number or a string, and on a list with an entry that is
    not a mapping (a list of model instances, say), the iteration raises
    [AttributeError]; so it does on an instance that lacks the target's
    primary-key attribute.  The dictionary is left as it was. *)
Theorem X19_unhandled_relation_values (m : ModelMeta) (field : string)
  (f : BaseField.t) (target : ModelRef) (p : gmap string value) :
  owning_foreign_key m field f target ->
  (forall v, p !! field = Some v ->
             truthy v = true -> is_Model v = false ->
             is_list v = false -> is_dict v = false ->
             substitute_model_with_pk m field p
             = (Raise (AttributeError "get"), p))
  /\ (forall targets, p !! field = Some (VList targets) ->
                      forallb is_dict targets = false ->
                      substitute_model_with_pk m field p
                      = (Raise (AttributeError "get"), p))
  /\ (forall cls attrs, p !! field = Some (VModel cls attrs) ->
                        attrs !! ref_pkname target = None ->
                        substitute_model_with_pk m field p
                        = (Raise (AttributeError (ref_pkname target)), p)).
Proof.
  intros (Hget & _ & _ & Hto). split_and!.
  - intros v Hv Htrue Hmodel Hlist Hdict. unfold_step.
    rewrite Hv, Hget. simpl. rewrite Hto. simpl.
    rewrite Hmodel, Htrue, Hlist. by destruct v.
  - intros targets Hv Hnot. unfold_step.
    rewrite Hv, Hget. simpl. rewrite Hto. simpl.
    rewrite (list_get_not_dicts targets _ Hnot).
    by destruct targets.
  - intros cls attrs Hv Hattr. unfold_step.
    rewrite Hv, Hget. simpl. rewrite Hto. simpl. by rewrite Hattr.
Qed.

Lemma X19_unhandled_relation_values_witness :
  substitute_model_with_pk pet_meta "owner" payload_owner_key
  = (Raise (AttributeError "get"), payload_owner_key)
  /\ substitute_model_with_pk pet_meta "owner" {[ "owner" := VList [saved_owner] ]}
     = (Raise (AttributeError "get"), {[ "owner" := VList [saved_owner] ]})
  /\ substitute_model_with_pk pet_meta "owner"
       {[ "owner" := VModel "owner" {[ "name" := VStr "ann" ]} ]}
     = (Raise (AttributeError (ref_pkname owner_ref)),
        {[ "owner" := VModel "owner" {[ "name" := VStr "ann" ]} ]}).
Proof.
  split_and!.
  - apply (proj1 (X19_unhandled_relation_values pet_meta "owner"
                    (ForeignKey_field "owner" owner_ref) owner_ref
                    payload_owner_key pet_owner_is_owning_foreign_key) (VInt 5)).
    + vm_compute. reflexivity.
    + reflexivity.
    + reflexivity.
    + reflexivity.
    + reflexivity.
  - apply (proj1 (proj2 (X19_unhandled_relation_values pet_meta "owner"
                           (ForeignKey_field "owner" owner_ref) owner_ref
                           {[ "owner" := VList [saved_owner] ]}
                           pet_owner_is_owning_foreign_key)) [saved_owner]).
    + vm_compute. reflexivity.
    + reflexivity.
  - apply (proj2 (proj2 (X19_unhandled_relation_values pet_meta "owner"
                           (ForeignKey_field "owner" owner_ref) owner_ref
                           {[ "owner" := VModel "owner" {[ "name" := VStr "ann" ]} ]}
                           pet_owner_is_owning_foreign_key))
             "owner" {[ "name" := VStr "ann" ]}).
    + vm_compute. reflexivity.
    + vm_compute. reflexivity.
Defined.

(** ** Many-to-many: the columns of the through model *)

Ltac unfold_m2m :=
  unfold create_and_append_m2m_fk, bind, get_state, lift, raise, modify, ret,
    meta_attr in *.

(** The run of [create_and_append_m2m_fk] when the model has a column
    under the alias of its primary key. *)
Lemma create_and_append_m2m_fk_run model through pk model_columns pk_column tn :
  pkname (model_Meta model) = Some pk ->
  columns (model_Meta model) = Some model_columns ->
  List.find (fun col => String.eqb (col_name col) (model_get_column_alias model pk))
            model_columns = Some pk_column ->
  tablename (model_Meta model) = Some tn ->
  let column := m2m_column (model_get_name model) (col_type pk_column)
                           (tn +:+ "." +:+ model_get_column_alias model pk) in
  create_and_append_m2m_fk model through
  = match columns through with
    | None => (Raise (AttributeError "columns"), through)
    | Some through_columns =>
        match table through with
        | None => (Raise (AttributeError "table"),
                   set_columns (through_columns ++ [column]) through)
        | Some through_table =>
            (Return tt,
             set_table (append_column column through_table)
                       (set_columns (through_columns ++ [column]) through))
        end
    end.
Proof.
  intros Hpk Hcols Hfind Htn. unfold_m2m.
  rewrite Hpk, Hcols. simpl. rewrite Hfind, Htn. simpl.
  destruct (columns through) as [tcols|]; simpl; [|done].
  by destruct (table through).
Qed.



(** X21: when no column of the model is named by the alias of its primary
    key, [create_and_append_m2m_fk] raises [ModelDefinitionError] and
    leaves the through model untouched.  When the through model has
    columns but no table yet, the call raises [AttributeError] only after
    it has appended the new column to the column list. *)
Theorem X21_m2m_fk_failures (model : ModelClass) (through : ModelMeta)
  (pk : string) (model_columns : list Column) :
  pkname (model_Meta model) = Some pk ->
  columns (model_Meta model) = Some model_columns ->
  (List.find (fun col => String.eqb (col_name col)
                                    (model_get_column_alias model pk))
             model_columns = None ->
   create_and_append_m2m_fk model through
   = (Raise (ModelDefinitionError
               "ManyToMany relation cannot lead to field without pk"),
      through))
  /\ (forall pk_column tn through_columns,
         List.find (fun col => String.eqb (col_name col)
                                          (model_get_column_alias model pk))
                   model_columns = Some pk_column ->
         tablename (model_Meta model) = Some tn ->
         columns through = Some through_columns ->
         table through = None ->
         exists through',
           create_and_append_m2m_fk model through
           = (Raise (AttributeError "table"), through')
           /\ exists column, columns through' = Some (through_columns ++ [column])
                             /\ col_name column = model_get_name model).
Proof.
  intros Hpk Hcols. split.
  - intros Hfind. unfold_m2m. rewrite Hpk, Hcols. simpl. by rewrite Hfind.
  - intros pk_column tn through_columns Hfind Htn Htc Htt.
    rewrite (create_and_append_m2m_fk_run model through pk model_columns
               pk_column tn Hpk Hcols Hfind Htn), Htc, Htt.
    eexists. split; [reflexivity|]. by eexists.
Qed.

Lemma X21_m2m_fk_failures_witness :
  create_and_append_m2m_fk
    {| model_get_name := "pet";
       model_get_column_alias := fun _ => "pet_id";
       model_Meta := pet_meta_compiled |}
    through_meta
  = (Raise (ModelDefinitionError
              "ManyToMany relation cannot lead to field without pk"),
     through_meta)
  /\ exists through',
       create_and_append_m2m_fk pet_class (set_columns [id_column] pet_meta)
       = (Raise (AttributeError "table"), through')
       /\ exists column, columns through' = Some ([id_column] ++ [column])
                         /\ col_name column = model_get_name pet_class.
Proof.
  split.
  - apply (proj1 (X21_m2m_fk_failures
                    {| model_get_name := "pet";
                       model_get_column_alias := fun _ => "pet_id";
                       model_Meta := pet_meta_compiled |}
                    through_meta "id"
                    (map (fun nf : string * BaseField.t =>
                            BaseField.get_column nf.2 (BaseField.get_alias nf.2))
                         pet_fields)
                    eq_refl eq_refl)).
    reflexivity.
  - apply (proj2 (X21_m2m_fk_failures pet_class
                    (set_columns [id_column] pet_meta) "id"
                    (map (fun nf : string * BaseField.t =>
                            BaseField.get_column nf.2 (BaseField.get_alias nf.2))
                         pet_fields)
                    eq_refl eq_refl)
             id_column "pets" [id_column]);
      reflexivity.
Defined.



(** ** Failed compilation *)

(** X23: when [populate_meta_tablename_columns_and_pk] raises, [Meta] has
    its table name set all the same, while its columns, its primary-key
    name and its table are what they were, and nothing is registered; on a
    [Meta] without columns the exception is a [ModelDefinitionError]. *)
Theorem X23_failed_compilation_state (name : string) (s s' : DefState) (e : exn) :
  populate_meta_tablename_columns_and_pk name s = (Raise e, s') ->
  is_Some (tablename (meta s'))
  /\ columns (meta s') = columns (meta s)
  /\ pkname (meta s') = pkname (meta s)
  /\ table (meta s') = table (meta s)
  /\ registry s' = registry s
  /\ (columns (meta s) = None -> is_ModelDefinitionError e = true).
Proof.
  intros Hrun.
  destruct (populate_meta_frame name s) as (Htn & Hreg & _ & Htable & Hraise).
  rewrite Hrun in Htn, Hreg, Htable, Hraise. simpl in *.
  destruct (Hraise e eq_refl) as [Hc Hp].
  split; [by rewrite Htn|].
  do 4 (split; [done|]).
  intros Hnone. revert Hrun. unfold_populate_meta. simpl. rewrite Hnone.
  destruct (sqlalchemy_columns_from_model_fields _ _)
    as [[[[pk|] cols]|e'] [fs lg]] eqn:Hcompile; simpl; try done.
  - by intros [= <- _].
  - intros [= <- _]. by apply sqlalchemy_columns_Raise in Hcompile as [? _].
Qed.

Lemma X23_failed_compilation_state_witness :
  let s := def_state (set_model_fields [("name", String_field "name")]
                                       pet_meta_declared) in
  let s' := (populate_meta_tablename_columns_and_pk "Pet" s).2 in
  is_Some (tablename (meta s'))
  /\ columns (meta s') = columns (meta s)
  /\ pkname (meta s') = pkname (meta s)
  /\ table (meta s') = table (meta s)
  /\ registry s' = registry s
  /\ (columns (meta s) = None ->
      is_ModelDefinitionError
        (ModelDefinitionError "Table has to have a primary key.") = true).
Proof.
  apply (X23_failed_compilation_state "Pet"
           (def_state (set_model_fields [("name", String_field "name")]
                                        pet_meta_declared))).
  vm_compute. reflexivity.
Defined.
